(** * cgoose: the dataset cache of [datahub.py] and the transport helpers of
    [queries.py], embedded in Rocq.

    The Python objects are modelled as the code has them: [self.meta_data] is
    a two-level dictionary (dataset name, then attribute name), the file
    system under [RawData/] and the remote server are finite maps from paths
    and URLs to files, and every method is a computation in a state monad in
    which a raised exception keeps the mutations made before it.

    The file system is that of Linux. The directory [RawData/] exists and
    [RawData/meta_data.p] is not a directory, so that [save] can write
    (without the first the constructor of the class raises). Any other
    directory exists when something lies beneath it, an empty one being
    kept as a marker under its path with a slash appended. Paths are
    compared as written. *)

From Stdlib Require Import ZArith Ascii String List.
From stdpp Require Import base option list strings gmap fin_maps pretty.

Local Open Scope string_scope.
Local Open Scope Z_scope.

(** ** Python strings *)

Module PyStr.

(** [s.rfind(c)] for a one-character needle: the highest index at which
    [c] occurs in [s], or [-1]. [i] is the index of the head of [s]. *)
Fixpoint rfind_from (i : Z) (s : string) (c : ascii) : Z :=
  match s with
  | EmptyString => -1
  | String a s' =>
      let r := rfind_from (i + 1) s' c in
      if 0 <=? r then r else if Ascii.eqb a c then i else -1
  end.

Definition rfind (s : string) (c : ascii) : Z := rfind_from 0 s c.

Fixpoint drop (n : nat) (s : string) : string :=
  match n, s with
  | O, _ => s
  | S _, EmptyString => EmptyString
  | S n', String _ s' => drop n' s'
  end.

Definition len (s : string) : Z := Z.of_nat (String.length s).

(** [s[i:]]: a negative start counts from the end, and the start is
    clipped to [0 .. len s]. *)
Definition slice_from (s : string) (i : Z) : string :=
  let start := if i <? 0 then Z.max 0 (len s + i) else Z.min i (len s) in
  drop (Z.to_nat start) s.

(** [c in chars] for a single character [c]. *)
Fixpoint char_in (c : ascii) (chars : string) : bool :=
  match chars with
  | EmptyString => false
  | String a rest => if Ascii.eqb c a then true else char_in c rest
  end.

(** [''.join(c for c in d if c not in chars)] *)
Fixpoint strip_chars (chars : string) (d : string) : string :=
  match d with
  | EmptyString => EmptyString
  | String c rest =>
      if char_in c chars then strip_chars chars rest
      else String c (strip_chars chars rest)
  end.

(** [sep.join(parts)] *)
Fixpoint join (sep : string) (parts : list string) : string :=
  match parts with
  | [] => ""
  | [p] => p
  | p :: rest => p +:+ sep +:+ join sep rest
  end.

(** [str(n)] for an [int]. *)
Definition str (n : Z) : string := pretty n.

(** What the spec calls "ending in" an extension. *)
Definition ends_with (s ext : string) : Prop := ∃ p, s = p +:+ ext.

(** [s.startswith(pre)] *)
Fixpoint startswith (pre s : string) : bool :=
  match pre with
  | EmptyString => true
  | String a pre' =>
      match s with
      | EmptyString => false
      | String b s' => if Ascii.eqb a b then startswith pre' s' else false
      end
  end.

(** [s.endswith(c)] for a single character [c]. *)
Fixpoint ends_in (c : ascii) (s : string) : bool :=
  match s with
  | EmptyString => false
  | String a EmptyString => Ascii.eqb a c
  | String _ rest => ends_in c rest
  end.

(** [s[:-1]] *)
Fixpoint drop_last (s : string) : string :=
  match s with
  | EmptyString | String _ EmptyString => EmptyString
  | String a rest => String a (drop_last rest)
  end.

(** [c.isspace()] for a code point below 256. *)
Definition isspace (c : ascii) : bool :=
  let n := Z.of_nat (nat_of_ascii c) in
  ((9 <=? n) && (n <=? 13)) || ((28 <=? n) && (n <=? 32))
  || (n =? 133) || (n =? 160).

Fixpoint lstrip (s : string) : string :=
  match s with
  | String c rest => if isspace c then lstrip rest else s
  | EmptyString => EmptyString
  end.

Fixpoint rstrip (s : string) : string :=
  match s with
  | EmptyString => EmptyString
  | String c rest =>
      match rstrip rest with
      | EmptyString => if isspace c then EmptyString else String c EmptyString
      | kept => String c kept
      end
  end.

(** [s.strip()] *)
Definition strip (s : string) : string := rstrip (lstrip s).

(** [s.split(sep)] for a one-character separator: [''] for the empty
    string, and an empty component at every doubled, leading or trailing
    separator. *)
Fixpoint split_on (sep : ascii) (s : string) : list string :=
  match s with
  | EmptyString => [EmptyString]
  | String c rest =>
      if Ascii.eqb c sep then EmptyString :: split_on sep rest
      else match split_on sep rest with
           | [] => [String c EmptyString]
           | part :: parts => String c part :: parts
           end
  end.

End PyStr.

(** ** Exceptions *)

Inductive exn : Type :=
| KeyError (key : string)
| IndexError
| TypeError (msg : string)
| AttributeError
| ValueError
| URLError (url : string)
| BadZipFile
| FileNotFoundError (path : string)
| IsADirectoryError
| NotADirectoryError
| FileExistsError
| UnicodeDecodeError
| UnpicklingError
| EmptyDataError
| ParserError.

(** The error kinds of the spec, as the exceptions the code raises for them. *)
Definition UnsupportedArchiveFormat : exn := TypeError "Download is not a .zip file.".
Definition UnknownDataset (name : string) : exn := KeyError name.

(** ** Values, records, files *)

(** A value stored in a record: the strings read from the URL, the archive
    listing and the metadata CSV, or the [datetime] written under
    ['updated']. *)
Inductive value : Type :=
| VStr (s : string)
| VTime (t : Z).

Abbreviation record := (gmap string value).
Abbreviation store := (gmap string (gmap string value)).

(** CSV text is kept as the rows [csv.reader] yields for it. *)
Abbreviation rows := (list (list string)).

(** What a path holds: text, an archive (its members in listing order,
    each with its name), a pickled store, or the marker of an empty
    directory. *)
#[warnings="-register-all"]
Inductive file : Type :=
| FText (content : rows)
| FZip (entries : list (string * file))
| FPickle (obj : store)
| FDir.

Abbreviation filesystem := (gmap string file).

(** The [Database] object together with the world it acts on. The [alerts]
    flag, which no method reads, is left out. *)
Record state : Type := mkState {
  meta_data : store;          (* self.meta_data *)
  fs : filesystem;            (* files by path *)
  net : gmap string file;     (* what each URL serves *)
  clock : Z;                  (* datetime.datetime.now() *)
  stdout : list string        (* lines written by print *)
}.

Definition with_meta_data (f : store → store) (s : state) : state :=
  mkState (f (meta_data s)) (fs s) (net s) (clock s) (stdout s).
Definition with_fs (f : filesystem → filesystem) (s : state) : state :=
  mkState (meta_data s) (f (fs s)) (net s) (clock s) (stdout s).
Definition with_stdout (f : list string → list string) (s : state) : state :=
  mkState (meta_data s) (fs s) (net s) (clock s) (f (stdout s)).

(** ** The monad of methods: state that survives a raise *)

Definition M (A : Type) : Type := state → state * (exn + A).

Definition raise {A} (e : exn) : M A := λ s, (s, inl e).
Definition get : M state := λ s, (s, inr s).
Definition modify (f : state → state) : M unit := λ s, (f s, inr tt).

#[global] Instance M_ret : MRet M := λ A (a : A) s, (s, inr a).
#[global] Instance M_bind : MBind M := λ A B (k : A → M B) (m : M A) s,
  match m s with
  | (s', inr a) => k a s'
  | (s', inl e) => (s', inl e)
  end.

(** [try: m except E: h], where [catches] says which exceptions [E] covers. *)
Definition try_except {A} (m : M A) (catches : exn → bool) (h : exn → M A) : M A :=
  λ s, match m s with
       | (s', inl e) => if catches e then h e s' else (s', inl e)
       | r => r
       end.

(** A subscript [d[k]] on a dictionary or list: the value, or the exception. *)
Definition lift_opt {A} (o : option A) (e : exn) : M A :=
  match o with Some a => mret a | None => raise e end.

Definition state_of {A} (r : state * (exn + A)) : state := fst r.
Definition outcome {A} (r : state * (exn + A)) : exn + A := snd r.

(** ** The world behind the library calls *)

Module World.
Import PyStr.

(** *** URLs *)

(** [urllib.parse.unwrap(url)] *)
Definition unwrap (url : string) : string :=
  let url := strip url in
  let url :=
    if startswith "<" url && ends_in ">" url
    then strip (drop_last (drop 1 url)) else url in
  if startswith "URL:" url then strip (drop 4 url) else url.

(** The first component of [url.rpartition('#')], or [url] itself when
    it has no [#]. *)
Definition before_tag (url : string) : string :=
  let i := rfind url "#" in
  if i <? 0 then url else String.substring 0 (Z.to_nat i) url.

(** A match of [([^/:]+):] at the start of [s]. *)
Fixpoint scheme_rest (s : string) : bool :=
  match s with
  | EmptyString => false
  | String c rest =>
      if Ascii.eqb c ":" then true
      else if Ascii.eqb c "/" then false
      else scheme_rest rest
  end.

Definition scheme_at_start (s : string) : bool :=
  match s with
  | EmptyString => false
  | String c rest =>
      if Ascii.eqb c ":" then false
      else if Ascii.eqb c "/" then false
      else scheme_rest rest
  end.

(** Whether [urllib.request.Request(url)] finds a URL type, without which
    it raises [ValueError]. *)
Definition has_scheme (url : string) : bool :=
  scheme_at_start (before_tag (unwrap url)).

(** *** Files and directories *)

Definition is_file (f : filesystem) (path : string) : bool :=
  match f !! path with
  | Some FDir | None => false
  | Some _ => true
  end.

(** Something lies beneath [d]. *)
Definition beneath (f : filesystem) (d : string) : bool :=
  existsb (λ entry, startswith (d +:+ "/") entry.1) (map_to_list f).

Definition is_dir (f : filesystem) (d : string) : bool :=
  bool_decide (d = "RawData") || beneath f d.

(** The directories on the way to a path, outermost first: [a] and
    [a/b] for [a/b/c], for [a/b//c] and for [a/b/c/]. *)
Fixpoint dirs_from (above : string) (parts : list string) : list string :=
  match parts with
  | [] | [_] => []
  | part :: rest =>
      let d := if decide (above = "") then part else above +:+ "/" +:+ part in
      d :: dirs_from d rest
  end.

Definition ancestors (path : string) : list string :=
  dirs_from "" (filter (λ part, part ≠ "") (split_on "/" path)).

(** The way down the directories [dirs] to [path]. A file on the way
    stops it; a missing directory stops it too, unless directories are
    being made ([os.makedirs]). *)
Fixpoint walk (make : bool) (path : string) (f : filesystem)
    (dirs : list string) : option exn :=
  match dirs with
  | [] => None
  | d :: rest =>
      if is_dir f d then walk make path f rest
      else if is_file f d then Some NotADirectoryError
      else if make then walk make path f rest
      else Some (FileNotFoundError path)
  end.

(** What [open(path, 'wb')] raises, if anything. *)
Definition write_error (f : filesystem) (path : string) : option exn :=
  match walk false path f (ancestors path) with
  | Some e => Some e
  | None =>
      if ends_in "/" path || is_dir f path then Some IsADirectoryError
      else None
  end.

(** [urllib.request.urlretrieve(url, dest)]: the URL is opened first, a
    URL without a scheme raising [ValueError] and one that serves nothing
    [URLError]; then [dest] is opened for writing; then the served file
    is written there. *)
Definition urlretrieve (url dest : string) : M unit :=
  s ← get;
  if has_scheme url then
    content ← lift_opt (net s !! url) (URLError url);
    match write_error (fs s) dest with
    | Some e => raise e
    | None => modify (with_fs (<[dest := content]>))
    end
  else raise ValueError.

(** What [open(path)] finds, for reading. *)
Definition read (f : filesystem) (path : string) : exn + file :=
  match f !! path with
  | Some FDir => inl IsADirectoryError
  | Some x => inr x
  | None =>
      if is_dir f path then inl IsADirectoryError
      else inl (FileNotFoundError path)
  end.

(** [zipfile.ZipFile(path, 'r')] *)
Definition ZipFile (path : string) : M (list (string * file)) :=
  s ← get;
  match read (fs s) path with
  | inl e => raise e
  | inr (FZip entries) => mret entries
  | inr _ => raise BadZipFile
  end.

(** [zip_ref.namelist()] *)
Definition namelist (zip_ref : list (string * file)) : list string :=
  zip_ref.*1.

(** The name under which [zipfile] extracts a member: the components of
    its name that are neither empty nor [.] nor [..]. *)
Definition arcname (name : string) : string :=
  join "/" (filter (λ part, part ∉ [""; "."; ".."]) (split_on "/" name)).

(** The path of a member below [dir]. *)
Definition target (dir name : string) : string :=
  let a := arcname name in
  if decide (a = "") then dir else dir +:+ "/" +:+ a.

(** The key under which a member is kept once extracted. A name that
    ends in a slash makes the member a directory. *)
Definition member_path (dir name : string) : string :=
  if ends_in "/" name then target dir name +:+ "/" else target dir name.

(** The extraction of one member: the directories above it are made,
    then a directory is made unless it is there, and a file is opened
    for writing and written. *)
Definition extract_member (dir : string) (f : filesystem)
    (member : string * file) : exn + filesystem :=
  let path := target dir member.1 in
  match walk true path f (ancestors path) with
  | Some e => inl e
  | None =>
      if ends_in "/" member.1 then
        if is_dir f path then inr f
        else if is_file f path then inl FileExistsError
        else inr (<[path +:+ "/" := FDir]> f)
      else if is_dir f path then inl IsADirectoryError
      else inr (<[path := member.2]> f)
  end.

(** The members in listing order, up to the first that raises. *)
Fixpoint extract_members (dir : string) (f : filesystem)
    (members : list (string * file)) : filesystem * option exn :=
  match members with
  | [] => (f, None)
  | member :: rest =>
      match extract_member dir f member with
      | inl e => (f, Some e)
      | inr f' => extract_members dir f' rest
      end
  end.

(** [zip_ref.extractall(dir)] *)
Definition extractall (zip_ref : list (string * file)) (dir : string) : M unit :=
  s ← get;
  let result := extract_members dir (fs s) zip_ref in
  modify (with_fs (λ _, result.1));;
  match result.2 with
  | Some e => raise e
  | None => mret tt
  end.

(** [list(csv.reader(open(path, mode='r')))] *)
Definition csv_rows (path : string) : M rows :=
  s ← get;
  match read (fs s) path with
  | inl e => raise e
  | inr (FText content) => mret content
  | inr _ => raise UnicodeDecodeError
  end.

(** [pathlib.Path(path).unlink()] *)
Definition unlink (path : string) : M unit :=
  s ← get;
  match fs s !! path with
  | None => raise (FileNotFoundError path)
  | Some _ => modify (with_fs (delete path))
  end.

(** [except OSError] *)
Definition is_OSError (e : exn) : bool :=
  match e with
  | FileNotFoundError _ | IsADirectoryError | NotADirectoryError
  | FileExistsError | URLError _ => true
  | _ => false
  end.

Definition strerror (e : exn) : string :=
  match e with
  | FileNotFoundError _ => "No such file or directory"
  | IsADirectoryError => "Is a directory"
  | NotADirectoryError => "Not a directory"
  | FileExistsError => "File exists"
  | _ => "None"
  end.

Definition print (line : string) : M unit :=
  modify (with_stdout (λ out, (out ++ [line])%list)).

(** [datetime.datetime.now()] *)
Definition now : M Z := s ← get; mret (clock s).

(** A [DataFrame] is represented by the rows it was parsed from. *)
Inductive DataFrame : Type := mkDataFrame (content : rows).

(** What [pandas] makes of CSV text, given as the rows [csv.reader] finds
    in it (the two are taken to split it alike). Blank lines are
    skipped. Text with no line left raises [EmptyDataError]. The first
    line left is the header; the width of the table is that of the
    header or of the first data line, whichever is longer (the surplus
    becomes the index), a shorter line is padded, and a later line
    longer than the width raises [ParserError]. *)
Definition blank (row : list string) : bool :=
  match row with [] => true | _ => false end.

Definition read_frame (content : rows) : exn + DataFrame :=
  match filter (λ row, blank row = false) content with
  | [] => inl EmptyDataError
  | header :: data =>
      let width :=
        match data with
        | first :: _ => Nat.max (length header) (length first)
        | [] => length header
        end in
      if forallb (λ row, Nat.leb (length row) width) data
      then inr (mkDataFrame content)
      else inl ParserError
  end.

(** [pandas.read_csv(v)], for [v] what the store holds: a time stamp is
    refused; a string is taken for the path of a local file of plain
    text (pandas takes a string with a URL scheme for a URL, and infers
    a compression from an extension such as [.gz] or [.zip]). *)
Definition pandas_read_csv (v : value) : M DataFrame :=
  match v with
  | VTime _ => raise ValueError
  | VStr path =>
      s ← get;
      match read (fs s) path with
      | inl e => raise e
      | inr (FText content) =>
          match read_frame content with
          | inr df => mret df
          | inl e => raise e
          end
      | inr _ => raise UnicodeDecodeError
      end
  end.

End World.

(** ** [datahub.Database] *)

Module Database.
Import PyStr World.

(** [self.meta_data[data_name][key]] *)
Definition get_item (data_name key : string) : M value :=
  s ← get;
  r ← lift_opt (meta_data s !! data_name) (KeyError data_name);
  lift_opt (r !! key) (KeyError key).

(** [self.meta_data[data_name][key] = v] *)
Definition set_item (data_name key : string) (v : value) : M unit :=
  s ← get;
  r ← lift_opt (meta_data s !! data_name) (KeyError data_name);
  modify (with_meta_data (<[data_name := <[key := v]> r]>)).

(** [dict(pairs)]: a later pair overwrites an earlier one with its key. *)
Definition dict (pairs : list (string * string)) : gmap string value :=
  foldl (λ d p, <[p.1 := VStr p.2]> d) ∅ pairs.

(** [self.meta_data[data_name].update(d)] *)
Definition update_item (data_name : string) (d : gmap string value) : M unit :=
  s ← get;
  r ← lift_opt (meta_data s !! data_name) (KeyError data_name);
  modify (with_meta_data (<[data_name := d ∪ r]>)).

(** A method of [str] on a stored value. *)
Definition as_str (v : value) : M string :=
  match v with VStr u => mret u | VTime _ => raise AttributeError end.

(** The characters removed from header tokens, as code points: the three
    of a byte-order mark read as Latin-1 (239, 187, 191) and the double
    quote (34). *)
Definition header_junk : string :=
  String "239" (String "187" (String "191" (String "034" EmptyString))).

Definition metafile_path : string := "RawData/11100134_MetaData.csv".
Definition pickle_path : string := "RawData/meta_data.p".

(** [dl_url[dl_url.rfind('.'):]] *)
Definition dl_type_of (dl_url : string) : string :=
  slice_from dl_url (rfind dl_url ".").

Definition download_of (dl_url : string) : string :=
  "RawData/temp" +:+ dl_type_of dl_url.

Definition save : M unit :=
  s ← get;
  modify (with_fs (<[pickle_path := FPickle (meta_data s)]>)).

Definition __init__ : M unit :=
  s ← get;
  match fs s !! pickle_path with
  | Some (FPickle obj) => modify (with_meta_data (λ _, obj))
  | Some _ => raise UnpicklingError
  | None => modify (with_meta_data (λ _, ∅));; save
  end.

Definition _download_data (data_name : string) : M unit :=
  v ← get_item data_name "dl_url";
  dl_url ← as_str v;
  let dl_type := dl_type_of dl_url in
  let download := "RawData/temp" +:+ dl_type in
  urlretrieve dl_url download;;
  (if decide (dl_type = ".zip") then
     zip_ref ← ZipFile download;
     n0 ← lift_opt (namelist zip_ref !! 0%nat) IndexError;
     set_item data_name "data_file" (VStr ("RawData/" +:+ n0));;
     n1 ← lift_opt (namelist zip_ref !! 1%nat) IndexError;
     set_item data_name "meta_data" (VStr ("RawData/" +:+ n1));;
     extractall zip_ref "RawData"
   else raise (TypeError "Download is not a .zip file."));;
  csv_file ← csv_rows metafile_path;
  let result := take 2 csv_file in
  row0 ← lift_opt (result !! 0%nat) IndexError;
  let result := <[0%nat := map (strip_chars header_junk) row0]> result in
  header ← lift_opt (result !! 0%nat) IndexError;
  values ← lift_opt (result !! 1%nat) IndexError;
  update_item data_name (dict (zip header values));;
  let file_path := download in
  t ← now;
  set_item data_name "updated" (VTime t);;
  try_except (unlink file_path) is_OSError
    (λ e, print ("Error: " +:+ file_path +:+ " : " +:+ strerror e)).

Definition load_data (data_name : string) : M DataFrame :=
  v ← get_item data_name "data_file";
  pandas_read_csv v.

Definition add_data (data_name dl_url : string) : M unit :=
  modify (with_meta_data (<[data_name := {["dl_url" := VStr dl_url]}]>));;
  _download_data data_name;;
  save.

Definition update_data (data_name : string) : M unit :=
  _download_data data_name;;
  save.

(** The two loops of [filter_meta], over the keys of the store and over
    the items of each record. *)
Definition filter_record (attributes : list string) (r : gmap string value)
  : gmap string value :=
  map_fold (λ sk v acc, if decide (sk ∈ attributes) then <[sk := v]> acc else acc)
           ∅ r.

Definition filter_meta (attributes : list string) : M store :=
  s ← get;
  mret (map_fold (λ k r meta, <[k := filter_record attributes r]> (<[k := ∅]> meta))
                 ∅ (meta_data s)).

End Database.


(** ** [queries]: the transport helpers *)

Module Queries.
Import PyStr.

(** What [requests.get] and [requests.post] hand back. *)
Record Response : Type := mkResponse {
  status_code : Z;
  text : string
}.

(** The exceptions of [queries.py], with those of the libraries under it. *)
Inductive error (J : Type) : Type :=
| ServerFailedError (status_code : string)
| EmptyJsonError (url : string) (json : option J)
| JSONDecodeError
| ConnectionError.
Arguments ServerFailedError {J} _.
Arguments EmptyJsonError {J} _ _.
Arguments JSONDecodeError {J}.
Arguments ConnectionError {J}.

Section Transport.
(** Parsed JSON, the decoder behind [result.json()], and the server:
    the response to a GET of a URL and to a POST of a body, if any. *)
Variable J : Type.
Variable json_loads : string → option J.
Variable requests_get : string → option Response.
Variable requests_post : string → J → option Response.

(** [result.json()] *)
Definition json_of (result : Response) : error J + J :=
  match json_loads (text result) with
  | Some v => inr v
  | None => inl JSONDecodeError
  end.

Definition _get (url : string) : error J + J :=
  match requests_get url with
  | None => inl ConnectionError
  | Some result =>
      if 500 <=? status_code result
      then inl (ServerFailedError (str (status_code result)))
      else if decide (text result = "")
      then inl (EmptyJsonError url None)
      else json_of result
  end.

Definition _post (url : string) (json : J) : error J + J :=
  match requests_post url json with
  | None => inl ConnectionError
  | Some result =>
      if 500 <=? status_code result
      then inl (ServerFailedError (str (status_code result)))
      else if decide (text result = "")
      then inl (EmptyJsonError url (Some json))
      else json_of result
  end.
End Transport.

(** The argument of [_convert_date]: a string, or a [datetime.date]. *)
Inductive date_arg : Type :=
| DateStr (s : string)
| DateObj (year month day : Z).

Definition _convert_date (date : date_arg) : string :=
  match date with
  | DateObj year month day => join "-" [str year; str month; str day]
  | DateStr s => s
  end.

(** The contract of the transport on a response: which of the two errors
    is raised, and what is returned otherwise. [sent] is the body of a
    POST. *)
Definition classified {J} (json_loads : string → option J)
    (url : string) (sent : option J) (result : Response)
    (out : error J + J) : Prop :=
  (500 <= status_code result →
   out = inl (ServerFailedError (str (status_code result))))
  ∧ (status_code result < 500 → text result = "" →
     out = inl (EmptyJsonError url sent))
  ∧ (status_code result < 500 → text result ≠ "" →
     out = match json_loads (text result) with
           | Some v => inr v
           | None => inl JSONDecodeError
           end)
  ∧ ((∃ code, out = inl (ServerFailedError code)) ↔ 500 <= status_code result)
  ∧ ((∃ j, out = inl (EmptyJsonError url j))
     ↔ status_code result < 500 ∧ text result = "").

(** A decoder that knows one document, and a server that answers every
    request with the same response, to run the transport on examples. *)
Definition loads_example (body : string) : option (list string) :=
  if decide (body = "[]") then Some [] else None.

Definition always (result : Response) : string → option Response :=
  λ _, Some result.

Definition not_found : Response := mkResponse 404 "<html>Not Found</html>".

End Queries.

(** ** Notions used to state the properties *)

Module Pipeline.
Import PyStr World Database.
Implicit Types (s : state) (n : string) (r : gmap string value).

(** The URL under which a dataset is registered, when it is a string. *)
Definition source_url s n : option string :=
  match meta_data s !! n ≫= (.!! "dl_url") with
  | Some (VStr u) => Some u
  | _ => None
  end.

(** The archive whose listing [_download_data n] reads in state [s]: the
    URL has the [.zip] extension and a scheme, it serves a zip file, and
    the temporary path can be written. *)
Definition opened_archive s n : option (list (string * file)) :=
  match source_url s n with
  | Some url =>
      if decide (dl_type_of url = ".zip") then
        match net s !! url with
        | Some (FZip entries) =>
            if has_scheme url then
              match write_error (fs s) (download_of url) with
              | None => Some entries
              | Some _ => None
              end
            else None
        | _ => None
        end
      else None
  | None => None
  end.

(** The file system after [extractall], whether it returned or raised. *)
Definition extracted (entries : list (string * file)) (f : filesystem) : filesystem :=
  (extract_members "RawData" f entries).1.

(** What [extractall] raises on these members, if anything. *)
Definition extraction_error (entries : list (string * file)) (f : filesystem)
  : option exn :=
  (extract_members "RawData" f entries).2.

(** The file system the merge step finds: the download written at its
    temporary path, then the members extracted over it. *)
Definition fs_after_extract s (url : string)
    (entries : list (string * file)) : filesystem :=
  extracted entries (<[download_of url := FZip entries]> (fs s)).

(** What [extractall] raises in the course of the fetch, if anything. *)
Definition extraction_failed s (url : string)
    (entries : list (string * file)) : option exn :=
  extraction_error entries (<[download_of url := FZip entries]> (fs s)).

Definition with_paths (e0 e1 : string) r : gmap string value :=
  <["meta_data" := VStr ("RawData/" +:+ e1)]>
    (<["data_file" := VStr ("RawData/" +:+ e0)]> r).

Definition merged (header values : list string) r : gmap string value :=
  dict (zip (map (strip_chars header_junk) header) values) ∪ r.

(** [m[n][k]], when both subscripts are there. *)
Definition attr (m : store) (n k : string) : option value :=
  m !! n ≫= (.!! k).



(** The operations of the lifecycle API. *)
Inductive op : Type :=
| Register (name url : string)
| Refresh (name : string)
| Load (name : string)
| Project (attributes : list string).

Definition exec (o : op) : M unit :=
  match o with
  | Register name url => add_data name url
  | Refresh name => update_data name
  | Load name => load_data name;; mret tt
  | Project attributes => filter_meta attributes;; mret tt
  end.

(** The store as [add_data] leaves it before it starts the download. *)
Definition registered (name url : string) s : state :=
  with_meta_data (<[name := {["dl_url" := VStr url]}]>) s.


(** The attributes the code itself writes, as opposed to those merged
    from the header: what the spec keeps apart as [extra_fields]. *)
Definition reserved : list string :=
  ["dl_url"; "data_file"; "meta_data"; "updated"].

End Pipeline.


(** ** Concrete worlds, for the examples *)

Module Examples.
Import PyStr World Database Pipeline.

Definition empty_state : state := mkState ∅ ∅ ∅ 0 [].


(** The spec's unsupported-format example. *)
Definition tar_url : string := "http://host/file.tar".
Definition tar_served : state := mkState ∅ ∅ {[tar_url := FText []]} 0 [].

(** The spec's happy path: a bundle of [data.csv] then [meta.csv]. *)
Definition cpi_url : string := "http://host/bundle.zip".
Definition cpi_rows : rows := [["REF_DATE"; "VALUE"]; ["2017-01"; "130.4"]].
Definition cpi_data : file := FText cpi_rows.
Definition cpi_meta : file :=
  FText [["Code"; "Label"]; ["001"; "Consumer Price Index"]].
Definition cpi_bundle : file :=
  FZip [("data.csv", cpi_data); ("meta.csv", cpi_meta)].
Definition cpi_fresh : state := mkState ∅ ∅ {[cpi_url := cpi_bundle]} 7 [].

(** The same, with the header file of table 11100134 left in [RawData/]
    by an earlier download. *)
Definition wages_meta : file :=
  FText [["Cube Title"; "Product Id"]; ["Wages"; "11100134"]].
Definition cpi_after_wages : state :=
  mkState ∅ {[metafile_path := wages_meta]} {[cpi_url := cpi_bundle]} 7 [].


(** An archive with a single member. *)
Definition one_url : string := "http://host/one.zip".
Definition one_bundle : file := FZip [("data.csv", cpi_data)].
Definition one_fresh : state := mkState ∅ ∅ {[one_url := one_bundle]} 7 [].

(** A dataset fetched before, whose URL now serves the single-member
    archive. *)
Definition fetched_record : gmap string value :=
  <["meta_data" := VStr "RawData/old_meta.csv"]>
    (<["data_file" := VStr "RawData/old.csv"]> {["dl_url" := VStr one_url]}).
Definition one_refresh : state :=
  mkState {["x" := fetched_record]} ∅ {[one_url := one_bundle]} 7 [].

(** The same dataset, whose URL now serves two members, the second a
    header file without a value row. *)
Definition short_bundle : file :=
  FZip [("new.csv", cpi_data); ("11100134_MetaData.csv", FText [["Code"]])].
Definition short_refresh : state :=
  mkState {["x" := fetched_record]} ∅ {[one_url := short_bundle]} 7 [].


End Examples.


(** ** [queries]: the endpoints that build their URL from arguments *)

Module Endpoints.
Import PyStr Queries.

(** What a caller may pass where a date is expected: a string, a
    [datetime.date], an instance of its subclass [datetime.datetime]
    (the time of day is never read), or another object, one that
    cannot be added to a string. *)
Inductive date_like : Type :=
| AStr (s : string)
| ADate (year month day : Z)
| ADateTime (year month day : Z)
| AOther.

(** What an endpoint raises: an exception of the transport, or the
    [TypeError] of a string concatenation with a non-string. *)
Inductive raised (J : Type) : Type :=
| Transport (e : error J)
| ConcatTypeError.
Arguments Transport {J} _.
Arguments ConcatTypeError {J}.

(** The double quote, and the three literals of the range URL that
    contain it. *)
Definition dq : string := String "034" EmptyString.
Definition vector_ids_open : string := "?vectorIds=" +:+ dq.
Definition vector_ids_sep : string := dq +:+ "," +:+ dq.
Definition vector_ids_close : string := dq +:+ "&".

Definition changed_cube_list_base : string :=
  "https://www150.statcan.gc.ca/t1/wds/rest/getChangedCubeList/".
Definition reference_period_range_base : string :=
  "https://www150.statcan.gc.ca/t1/wds/rest/getDataFromVectorByReferencePeriodRange".
Definition full_table_csv_base : string :=
  "https://www150.statcan.gc.ca/t1/wds/rest/getFullTableDownloadCSV/".

(** The table of [_id_language], in the insertion order of the literal. *)
Definition lan_dict : list (string * list string) :=
  [("en", ["english"; "English"; "ENGLISH"; "EN"; "en";
           "En"; "Eng"; "ENG"; "eng"]);
   ("fr", ["french"; "French"; "FRENCH"; "FR"; "fr"; "Fr";
           "Fre"; "FRE"; "fre"; "FRN"; "frn"; "Frn"])].

(** The loop [for k, v in items: if lang in v: return k], then
    [return None]. *)
Fixpoint first_listing (lang : string) (items : list (string * list string))
  : option string :=
  match items with
  | [] => None
  | (k, v) :: rest =>
      if decide (lang ∈ v) then Some k else first_listing lang rest
  end.

Definition _id_language (lang : string) : option string :=
  first_listing lang lan_dict.

(** ['{lan}'.format(lan=x)] for [x] a string or [None]. *)
Definition format_lan (x : option string) : string :=
  match x with Some k => k | None => "None" end.

(** The two [if isinstance(p, datetime.date)] blocks of the range
    endpoint: the value left in the variable, a string unless the
    argument was neither a string nor a date. *)
Definition inline_period (p : date_like) : option string :=
  match p with
  | ADate year month day | ADateTime year month day =>
      Some (join "-" [str year; str month; str day])
  | AStr s => Some s
  | AOther => None
  end.

Section Requests.
Variable J : Type.
Variable json_loads : string → option J.
Variable requests_get : string → option Response.

Definition get_changed_cube_list (date : date_like) : error J + J :=
  let url := changed_cube_list_base in
  let url :=
    match date with
    | AStr s => url +:+ s
    | ADate year month day => url +:+ _convert_date (DateObj year month day)
    | _ => url
    end in
  _get J json_loads requests_get url.

Definition get_data_from_vector_by_reference_period_range
    (vectors : list Z) (start_reference_period end_reference_period : date_like)
  : raised J + J :=
  match inline_period start_reference_period,
        inline_period end_reference_period with
  | Some start_reference_period, Some end_reference_period =>
      let url := reference_period_range_base in
      let url := url +:+ vector_ids_open
                     +:+ join vector_ids_sep (map str vectors)
                     +:+ vector_ids_close
                     +:+ "startRefPeriod=" +:+ start_reference_period +:+ "&"
                     +:+ "endReferencePeriod=" +:+ end_reference_period in
      match _get J json_loads requests_get url with
      | inl e => inl (Transport e)
      | inr v => inr v
      end
  | _, _ => inl ConcatTypeError
  end.

Definition get_full_table_download_csv (product_id : Z) (language : string)
  : error J + J :=
  let url := full_table_csv_base in
  let url := url +:+ str product_id
                 +:+ "/" +:+ format_lan (_id_language language) in
  _get J json_loads requests_get url.
End Requests.

End Endpoints.

(** ** Notions for the properties of the whole pipeline *)

Module Frame.
Import PyStr World Database Pipeline.

(** [s.startswith(pre)] *)
Fixpoint has_prefix (pre s : string) : bool :=
  match pre with
  | EmptyString => true
  | String a pre' =>
      match s with
      | EmptyString => false
      | String b s' => if Ascii.eqb a b then has_prefix pre' s' else false
      end
  end.

(** A path lies in the cache directory. *)
Definition in_cache (p : string) : bool := has_prefix "RawData/" p.

(** What a fetch for [n] may do to the state: other records stay as they
    are, the record of [n] is neither created nor dropped and loses no
    key, and no file outside the cache directory is touched. *)
Definition fetch_effect (n : string) (s s' : state) : Prop :=
  (∀ n', n' ≠ n → meta_data s' !! n' = meta_data s !! n')
  ∧ (∀ r, meta_data s !! n = Some r →
       ∃ r', meta_data s' !! n = Some r' ∧ dom r ⊆ dom r')
  ∧ (meta_data s !! n = None → meta_data s' !! n = None)
  ∧ (∀ p, in_cache p = false → fs s' !! p = fs s !! p).

Definition keeps {A} (R : state → state → Prop) (m : M A) : Prop :=
  ∀ s, R s (state_of (m s)).

(** The paths under which [extractall] leaves the members. *)
Definition member_paths (entries : list (string * file)) : list string :=
  map (λ e, member_path "RawData" e.1) entries.

(** The pickle on disk is the store in memory. *)
Definition synced (s : state) : Prop :=
  fs s !! pickle_path = Some (FPickle (meta_data s)).

(** The store a new [Database] object starts from is whatever the caller
    had in memory before; [__init__] overwrites it. *)
Definition fresh_object (m : store) (s : state) : state :=
  with_meta_data (λ _, m) s.

End Frame.

(** * Running the monad *)

Section Run.
Context {A B : Type}.
Implicit Types (s : state) (e : exn).

Lemma run_bind (m : M A) (k : A → M B) s :
  (m ≫= k) s = match m s with
               | (s', inr a) => k a s'
               | (s', inl e) => (s', inl e)
               end.
Proof. reflexivity. Qed.

Lemma run_ret (a : A) s : mret (M := M) a s = (s, inr a).
Proof. reflexivity. Qed.

Lemma run_raise e s : raise (A := A) e s = (s, inl e).
Proof. reflexivity. Qed.

Lemma run_lift_Some (a : A) e s : lift_opt (Some a) e s = (s, inr a).
Proof. reflexivity. Qed.

Lemma run_lift_None e s : lift_opt (A := A) None e s = (s, inl e).
Proof. reflexivity. Qed.
End Run.

Module WorldFacts.
Import PyStr World.
Implicit Types (s : state).

Lemma urlretrieve_run s url dest :
  urlretrieve url dest s
  = if has_scheme url then
      match net s !! url with
      | None => (s, inl (URLError url))
      | Some c =>
          match write_error (fs s) dest with
          | Some e => (s, inl e)
          | None => (with_fs (<[dest := c]>) s, inr tt)
          end
      end
    else (s, inl ValueError).
Proof.
  unfold urlretrieve. rewrite run_bind. cbn [get].
  destruct (has_scheme url); [|done].
  rewrite run_bind. destruct (net s !! url) as [c|]; [|done].
  rewrite run_lift_Some. by destruct (write_error (fs s) dest).
Qed.

Lemma urlretrieve_ok s url dest c :
  has_scheme url = true →
  net s !! url = Some c →
  write_error (fs s) dest = None →
  urlretrieve url dest s = (with_fs (<[dest := c]>) s, inr tt).
Proof. intros Hs Hc Hw. by rewrite urlretrieve_run, Hs, Hc, Hw. Qed.

(** Retrieval either raises and changes nothing, or writes what the URL
    serves at the destination. *)
Lemma urlretrieve_cases s url dest :
  (∃ e, urlretrieve url dest s = (s, inl e))
  ∨ (∃ c, has_scheme url = true ∧ net s !! url = Some c
          ∧ write_error (fs s) dest = None
          ∧ urlretrieve url dest s = (with_fs (<[dest := c]>) s, inr tt)).
Proof.
  rewrite urlretrieve_run.
  destruct (has_scheme url); [|eauto].
  destruct (net s !! url) as [c|]; [|eauto].
  destruct (write_error (fs s) dest) as [e|]; [eauto|].
  right. by exists c.
Qed.

Lemma ZipFile_ok s path entries :
  fs s !! path = Some (FZip entries) → ZipFile path s = (s, inr entries).
Proof.
  intros H. unfold ZipFile, read. rewrite run_bind. cbn. rewrite H. reflexivity.
Qed.

Lemma ZipFile_bad s path c :
  fs s !! path = Some c → (∀ entries, c ≠ FZip entries) →
  ∃ e, ZipFile path s = (s, inl e).
Proof.
  intros H Hc. unfold ZipFile, read. rewrite run_bind. cbn. rewrite H.
  destruct c; eauto. by destruct (Hc entries).
Qed.

Lemma csv_rows_run s path :
  csv_rows path s
  = (s, match read (fs s) path with
        | inl e => inl e
        | inr (FText content) => inr content
        | inr _ => inl UnicodeDecodeError
        end).
Proof.
  unfold csv_rows. rewrite run_bind. cbn.
  by destruct (read (fs s) path) as [|[]].
Qed.

Lemma read_text (f : filesystem) path content :
  f !! path = Some (FText content) → read f path = inr (FText content).
Proof. intros H. unfold read. by rewrite H. Qed.

(** Only text is read as text. *)
Lemma read_cases (f : filesystem) path :
  match f !! path with
  | Some (FText content) => read f path = inr (FText content)
  | _ => (∃ e, read f path = inl e) ∨ (∃ x, read f path = inr x ∧ ∀ c, x ≠ FText c)
  end.
Proof.
  unfold read. destruct (f !! path) as [[]|]; eauto.
  destruct (is_dir f path); eauto.
Qed.

Lemma unlink_ok s path c :
  fs s !! path = Some c → unlink path s = (with_fs (delete path) s, inr tt).
Proof. intros H. unfold unlink. rewrite run_bind. cbn. rewrite H. reflexivity. Qed.

Lemma pandas_read_csv_run s path :
  pandas_read_csv (VStr path) s
  = (s, match read (fs s) path with
        | inl e => inl e
        | inr (FText content) => read_frame content
        | inr _ => inl UnicodeDecodeError
        end).
Proof.
  unfold pandas_read_csv. rewrite run_bind. cbn [get].
  destruct (read (fs s) path) as [e|[content| | |]]; try done.
  by destruct (read_frame content).
Qed.

Lemma pandas_read_csv_state s v : state_of (pandas_read_csv v s) = s.
Proof.
  destruct v as [path|t]; [|done]. by rewrite pandas_read_csv_run.
Qed.

(** One member either raises, or leaves everything as it is (a
    directory that is there), or is kept under its path, which is not
    that of the directory extracted into. *)
Lemma extract_member_inr dir (f f' : filesystem) member :
  extract_member dir f member = inr f' →
  f' = f
  ∨ (is_dir f (target dir member.1) = false
     ∧ f' = <[member_path dir member.1 :=
                if ends_in "/" member.1 then FDir else member.2]> f).
Proof.
  unfold extract_member, member_path.
  destruct (walk _ _ _ _); [done|].
  destruct (ends_in "/" member.1).
  - destruct (is_dir f _) eqn:Hd; [intros [= <-]; by left|].
    destruct (is_file f _); [done|]. intros [= <-]. by right.
  - destruct (is_dir f _) eqn:Hd; [done|]. intros [= <-]. by right.
Qed.

(** A member is never kept under the cache directory itself, so what is
    written lies in it. *)
Lemma member_path_in_cache (f : filesystem) name :
  is_dir f (target "RawData" name) = false →
  Frame.in_cache (member_path "RawData" name) = true.
Proof.
  unfold member_path, target.
  destruct (decide (arcname name = "")) as [_|_].
  - unfold is_dir. by rewrite bool_decide_eq_true_2.
  - intros _. by destruct (ends_in "/" name).
Qed.
End WorldFacts.

Module DatabaseFacts.
Import PyStr World Database Pipeline WorldFacts.
Implicit Types (s : state) (n : string) (r : gmap string value).

Ltac mred :=
  unfold mbind, M_bind, mret, M_ret, lift_opt, raise, get, modify; cbn.

Lemma get_item_ok s n r k v :
  meta_data s !! n = Some r → r !! k = Some v → get_item n k s = (s, inr v).
Proof. intros Hr Hk. unfold get_item. mred. rewrite Hr. cbn. by rewrite Hk. Qed.

Lemma get_item_no_record s n k :
  meta_data s !! n = None → get_item n k s = (s, inl (KeyError n)).
Proof. intros Hr. unfold get_item. mred. by rewrite Hr. Qed.

Lemma get_item_no_key s n r k :
  meta_data s !! n = Some r → r !! k = None → get_item n k s = (s, inl (KeyError k)).
Proof. intros Hr Hk. unfold get_item. mred. rewrite Hr. cbn. by rewrite Hk. Qed.

Lemma set_item_ok s n r k v :
  meta_data s !! n = Some r →
  set_item n k v s = (with_meta_data (<[n := <[k := v]> r]>) s, inr tt).
Proof. intros Hr. unfold set_item. mred. by rewrite Hr. Qed.

Lemma update_item_ok s n r d :
  meta_data s !! n = Some r →
  update_item n d s = (with_meta_data (<[n := d ∪ r]>) s, inr tt).
Proof. intros Hr. unfold update_item. mred. by rewrite Hr. Qed.

Lemma extractall_run s entries :
  extractall entries "RawData" s
  = (with_fs (extracted entries) s,
     match extraction_error entries (fs s) with
     | Some e => inl e
     | None => inr tt
     end).
Proof.
  unfold extractall, extracted, extraction_error, with_fs.
  rewrite run_bind. cbn [get]. cbv zeta. rewrite run_bind. cbn [modify].
  by destruct (extract_members "RawData" (fs s) entries) as [f' [e|]].
Qed.

Lemma extracted_cons entries (f : filesystem) member :
  extracted (member :: entries) f
  = match extract_member "RawData" f member with
    | inl _ => f
    | inr f' => extracted entries f'
    end.
Proof.
  unfold extracted. cbn [extract_members].
  by destruct (extract_member "RawData" f member).
Qed.

Lemma extraction_error_cons entries (f : filesystem) member :
  extraction_error (member :: entries) f
  = match extract_member "RawData" f member with
    | inl e => Some e
    | inr f' => extraction_error entries f'
    end.
Proof.
  unfold extraction_error. cbn [extract_members].
  by destruct (extract_member "RawData" f member).
Qed.

(** A property of the files that writing one member keeps is kept by
    the extraction, however far it gets. *)
Lemma extracted_ind (P : filesystem → Prop) entries (f : filesystem) :
  (∀ f' path x, P f' →
     path ∈ Frame.member_paths entries → Frame.in_cache path = true →
     P (<[path := x]> f')) →
  P f → P (extracted entries f).
Proof.
  revert f. induction entries as [|member es IH]; intros f Hstep Hf; [done|].
  rewrite extracted_cons.
  destruct (extract_member "RawData" f member) as [e|f'] eqn:Hm; [done|].
  apply IH.
  - intros f'' path x HP Hin. apply Hstep; [done|]. by right.
  - apply extract_member_inr in Hm as [->|(Hd & ->)]; [done|].
    apply Hstep; [done|by left|by eapply member_path_in_cache].
Qed.

Lemma extracted_keeps entries (f : filesystem) p :
  is_Some (f !! p) → is_Some (extracted entries f !! p).
Proof.
  intros Hf. apply (extracted_ind (λ f', is_Some (f' !! p))); [|done].
  intros f' path x Hp _ _. destruct (decide (path = p)) as [->|Hne].
  - rewrite lookup_insert_eq. eauto.
  - by rewrite lookup_insert_ne.
Qed.

Ltac mstep lem :=
  rewrite run_bind;
  erewrite lem by (cbn; first [eassumption | apply lookup_insert_eq | eauto]);
  cbv beta iota zeta.

Lemma opened_archive_Some s n entries :
  opened_archive s n = Some entries →
  ∃ r url, meta_data s !! n = Some r ∧ r !! "dl_url" = Some (VStr url)
           ∧ dl_type_of url = ".zip" ∧ net s !! url = Some (FZip entries)
           ∧ has_scheme url = true
           ∧ write_error (fs s) (download_of url) = None.
Proof.
  unfold opened_archive, source_url.
  destruct (meta_data s !! n) as [r|] eqn:Hr; cbn; [|done].
  destruct (r !! "dl_url") as [[url|t]|] eqn:Hu; cbn; [|done..].
  destruct (decide _) as [Hz|Hz]; [|done].
  destruct (net s !! url) as [[]|] eqn:Hc; try done.
  destruct (has_scheme url) eqn:Hs; [|done].
  destruct (write_error _ _) eqn:Hw; [done|].
  intros [= <-]. eauto 10.
Qed.


Ltac mdone := solve [cbn; eauto].

Lemma download_not_opened s n :
  opened_archive s n = None →
  ∃ e, outcome (_download_data n s) = inl e
       ∧ meta_data (state_of (_download_data n s)) = meta_data s.
Proof.
  unfold opened_archive, source_url, _download_data.
  destruct (meta_data s !! n) as [r|] eqn:Hr; cbn [mbind option_bind];
    [|mstep get_item_no_record; mdone].
  destruct (r !! "dl_url") as [[url|t]|] eqn:Hu;
    [| mstep get_item_ok; mdone | mstep get_item_no_key; mdone ].
  mstep get_item_ok. rewrite run_bind. cbn [as_str]. rewrite run_ret. cbv beta iota zeta.
  rewrite run_bind. fold (download_of url).
  destruct (urlretrieve_cases s url (download_of url))
    as [[e ->]|(c & Hs & Hc & Hw & ->)]; [mdone|].
  rewrite Hs, Hc, Hw. cbv beta iota zeta. rewrite run_bind.
  destruct (decide _) as [Hz|Hz]; [|rewrite run_raise; mdone].
  intros Hc'. rewrite run_bind.
  destruct (ZipFile_bad (with_fs (<[download_of url := c]>) s) (download_of url) c)
    as [e ->]; [cbn; apply lookup_insert_eq|by intros es ->|mdone].
Qed.

(** The steps of [_download_data] up to the opening of the archive. *)
Ltac to_archive :=
  unfold _download_data;
  mstep get_item_ok;
  rewrite run_bind; cbn [as_str]; rewrite run_ret; cbv beta iota zeta;
  mstep urlretrieve_ok;
  rewrite run_bind, decide_True by done;
  mstep ZipFile_ok.

Lemma download_empty s n :
  opened_archive s n = Some [] →
  outcome (_download_data n s) = inl IndexError
  ∧ meta_data (state_of (_download_data n s)) = meta_data s.
Proof.
  intros (r & url & Hr & Hu & Hz & Hc & Hs & Hw)%opened_archive_Some.
  to_archive. rewrite run_bind. cbn [namelist fmap list_fmap lookup list_lookup].
  rewrite run_lift_None. done.
Qed.

Lemma download_single s n r e x :
  meta_data s !! n = Some r →
  opened_archive s n = Some [(e, x)] →
  outcome (_download_data n s) = inl IndexError
  ∧ meta_data (state_of (_download_data n s))
    = <[n := <["data_file" := VStr ("RawData/" +:+ e)]> r]> (meta_data s).
Proof.
  intros Hr' (r' & url & Hr & Hu & Hz & Hc & Hs & Hw)%opened_archive_Some.
  assert (r' = r) as -> by congruence.
  to_archive. rewrite run_bind. cbn [namelist fmap list_fmap lookup list_lookup fst].
  rewrite run_lift_Some. cbv beta iota zeta.
  mstep set_item_ok. rewrite run_bind, run_lift_None. done.
Qed.

Lemma now_run s : now s = (s, inr (clock s)).
Proof. reflexivity. Qed.

(** The rest of [_download_data] once the archive is extracted. *)
Definition merge_step (n download : string) : M unit :=
  csv_file ← csv_rows metafile_path;
  let result := take 2 csv_file in
  row0 ← lift_opt (result !! 0%nat) IndexError;
  let result := <[0%nat := map (strip_chars header_junk) row0]> result in
  header ← lift_opt (result !! 0%nat) IndexError;
  values ← lift_opt (result !! 1%nat) IndexError;
  update_item n (dict (zip header values));;
  let file_path := download in
  t ← now;
  set_item n "updated" (VTime t);;
  try_except (unlink file_path) is_OSError
    (λ e, print ("Error: " +:+ file_path +:+ " : " +:+ strerror e)).

Lemma download_to_merge s n r url e0 x0 e1 x1 rest :
  meta_data s !! n = Some r →
  r !! "dl_url" = Some (VStr url) →
  dl_type_of url = ".zip" →
  net s !! url = Some (FZip ((e0, x0) :: (e1, x1) :: rest)) →
  has_scheme url = true →
  write_error (fs s) (download_of url) = None →
  let entries := (e0, x0) :: (e1, x1) :: rest in
  let s' := with_fs (λ _, fs_after_extract s url entries)
              (with_meta_data (<[n := with_paths e0 e1 r]>) s) in
  _download_data n s
  = match extraction_failed s url entries with
    | Some e => (s', inl e)
    | None => merge_step n (download_of url) s'
    end.
Proof.
  intros Hr Hu Hz Hc Hs Hw entries s'. subst s'.
  to_archive. subst entries.
  rewrite run_bind. cbn [namelist fmap list_fmap lookup list_lookup fst].
  rewrite run_lift_Some. cbv beta iota zeta.
  mstep set_item_ok.
  rewrite run_bind, run_lift_Some. cbv beta iota zeta.
  mstep set_item_ok. rewrite extractall_run.
  unfold extraction_failed, with_paths, fs_after_extract, with_fs, with_meta_data.
  cbn. rewrite insert_insert_eq.
  by destruct (extraction_error _ _).
Qed.

Lemma merge_step_run s n r download c :
  meta_data s !! n = Some r →
  fs s !! download = Some c →
  match fs s !! metafile_path with
  | Some (FText (header :: values :: _)) =>
      merge_step n download s
      = (mkState
           (<[n := <["updated" := VTime (clock s)]>
                     (dict (zip (map (strip_chars header_junk) header) values) ∪ r)]>
              (meta_data s))
           (delete download (fs s)) (net s) (clock s) (stdout s),
         inr tt)
  | _ =>
      ∃ e, merge_step n download s = (s, inl e)
  end.
Proof.
  intros Hr Hd. unfold merge_step.
  rewrite run_bind, csv_rows_run.
  pose proof (read_cases (fs s) metafile_path) as Hread.
  destruct (fs s !! metafile_path) as [[[|header [|values t]]| | |]|] eqn:Hm.
  4-7: destruct Hread as [[e ->]|(x & -> & Hx)]; [mdone|];
       destruct x; [by destruct (Hx content)|mdone..].
  all: rewrite Hread; try mdone.
  cbv beta iota zeta. rewrite run_bind. cbn [take lookup list_lookup].
  rewrite run_lift_Some. cbv beta iota zeta.
  rewrite run_bind. cbn [take insert list_insert lookup list_lookup].
  rewrite run_lift_Some. cbv beta iota zeta.
  rewrite run_bind, run_lift_Some. cbv beta iota zeta.
  mstep update_item_ok. rewrite run_bind, now_run. cbv beta iota zeta.
  mstep set_item_ok. unfold try_except. erewrite unlink_ok by (cbn; eauto).
  unfold with_fs, with_meta_data. cbn. rewrite !insert_insert_eq. done.
Qed.

Lemma download_listed s n r url e0 x0 e1 x1 rest :
  meta_data s !! n = Some r →
  r !! "dl_url" = Some (VStr url) →
  dl_type_of url = ".zip" →
  net s !! url = Some (FZip ((e0, x0) :: (e1, x1) :: rest)) →
  has_scheme url = true →
  write_error (fs s) (download_of url) = None →
  let res := _download_data n s in
  let f := fs_after_extract s url ((e0, x0) :: (e1, x1) :: rest) in
  match extraction_failed s url ((e0, x0) :: (e1, x1) :: rest),
        f !! metafile_path with
  | None, Some (FText (header :: values :: _)) =>
      res = (mkState
               (<[n := <["updated" := VTime (clock s)]>
                         (merged header values (with_paths e0 e1 r))]> (meta_data s))
               (delete (download_of url) f) (net s) (clock s) (stdout s),
             inr tt)
  | _, _ =>
      (∃ e, outcome res = inl e)
      ∧ meta_data (state_of res) = <[n := with_paths e0 e1 r]> (meta_data s)
      ∧ fs (state_of res) = f
  end.
Proof.
  intros Hr Hu Hz Hc Hs Hw res f. subst res f.
  set (entries := (e0, x0) :: (e1, x1) :: rest).
  rewrite (download_to_merge s n r url e0 x0 e1 x1 rest) by done.
  fold entries.
  destruct (extraction_failed s url entries) as [e|] eqn:Hx.
  { cbn. destruct (fs_after_extract s url entries !! metafile_path)
      as [[[|? [|? ?]]| | |]|]; eauto. }
  assert (is_Some (fs_after_extract s url entries !! download_of url)) as [c' Hd].
  { apply extracted_keeps. rewrite lookup_insert_eq. eauto. }
  set (s' := with_fs _ _).
  pose proof (merge_step_run s' n (with_paths e0 e1 r) (download_of url) c') as Hm.
  cbn [s' fs with_fs meta_data with_meta_data clock net stdout] in Hm.
  rewrite lookup_insert_eq in Hm. specialize (Hm eq_refl Hd).
  destruct (fs_after_extract s url entries !! metafile_path)
    as [[[|header [|values t]]| | |]|] eqn:Hmf.
  3: { rewrite Hm. unfold merged. by rewrite insert_insert_eq. }
  all: destruct Hm as [e ->]; cbn; eauto.
Qed.
End DatabaseFacts.

Module PyStrFacts.
Import PyStr Database.

Lemma app_cons a p t : String a p +:+ t = String a (p +:+ t).
Proof. reflexivity. Qed.

Lemma app_nil t : "" +:+ t = t.
Proof. reflexivity. Qed.

Lemma drop_suffix n s : ∃ p, s = p +:+ drop n s.
Proof.
  revert s. induction n as [|n IH]; intros s.
  - by exists "".
  - destruct s as [|a s]; [by exists ""|].
    destruct (IH s) as [p Hp]. exists (String a p).
    rewrite app_cons. cbn [drop]. by rewrite <- Hp.
Qed.

Lemma drop_app p t : drop (String.length p) (p +:+ t) = t.
Proof.
  induction p as [|a p IH]; [by destruct t|].
  rewrite app_cons. cbn [drop String.length]. done.
Qed.

Lemma length_app p t :
  String.length (p +:+ t) = (String.length p + String.length t)%nat.
Proof.
  induction p as [|a p IH]; [done|].
  rewrite app_cons. cbn [String.length]. by rewrite IH.
Qed.

Lemma rfind_from_zip i p : 0 <= i → rfind_from i (p +:+ ".zip") "." = i + len p.
Proof.
  revert i. induction p as [|a p IH]; intros i Hi.
  - rewrite app_nil. unfold len. cbn. lia.
  - rewrite app_cons. cbn [rfind_from]. rewrite IH by lia.
    unfold len. cbn [String.length].
    destruct (0 <=? _) eqn:Hle; lia.
Qed.

(** The extension the code cuts from a URL is [.zip] exactly when the URL
    ends in [.zip]. *)
Lemma dl_type_zip_iff url : dl_type_of url = ".zip" ↔ ends_with url ".zip".
Proof.
  unfold dl_type_of, ends_with. split.
  - intros H. destruct (drop_suffix (Z.to_nat
      (if rfind url "." <? 0 then Z.max 0 (len url + rfind url ".")
       else Z.min (rfind url ".") (len url))) url) as [p Hp].
    exists p. unfold slice_from in H. by rewrite H in Hp.
  - intros [p ->]. unfold rfind. rewrite rfind_from_zip by lia.
    unfold slice_from, len. rewrite length_app. cbn [String.length].
    case Z.ltb_spec; intros Hlt; [exfalso; lia|].
    replace (Z.to_nat _) with (String.length p) by lia.
    apply drop_app.
Qed.
End PyStrFacts.

(** * The lifecycle operations *)

Module LifecycleFacts.
Import PyStr World Database Pipeline WorldFacts DatabaseFacts PyStrFacts.
Implicit Types (s : state) (n : string) (r : gmap string value).

Lemma update_data_run s n :
  update_data n s
  = match _download_data n s with
    | (s', inr _) => (with_fs (<[pickle_path := FPickle (meta_data s')]>) s', inr tt)
    | (s', inl e) => (s', inl e)
    end.
Proof. reflexivity. Qed.


Lemma update_data_outcome s n :
  outcome (update_data n s) = outcome (_download_data n s).
Proof. rewrite update_data_run. by destruct (_download_data n s) as [s' [e|[]]]. Qed.

Lemma add_data_run s n url :
  add_data n url s = update_data n (registered n url s).
Proof. reflexivity. Qed.

Lemma load_data_state s n : state_of (load_data n s) = s.
Proof.
  unfold load_data. rewrite run_bind.
  destruct (meta_data s !! n) as [r|] eqn:Hr;
    [|by erewrite get_item_no_record].
  destruct (r !! "data_file") as [v|] eqn:Hd;
    [|by erewrite get_item_no_key].
  erewrite get_item_ok by done. apply pandas_read_csv_state.
Qed.

Lemma registered_lookup s n url :
  meta_data (registered n url s) !! n = Some {["dl_url" := VStr url]}.
Proof. cbn. apply lookup_insert_eq. Qed.


(** A fetch that returns went all the way: what it opened, read and
    left behind. *)
Lemma download_returned s n :
  outcome (_download_data n s) = inr tt →
  ∃ r url e0 x0 e1 x1 rest header values more,
    let entries := (e0, x0) :: (e1, x1) :: rest in
    meta_data s !! n = Some r
    ∧ r !! "dl_url" = Some (VStr url)
    ∧ dl_type_of url = ".zip"
    ∧ net s !! url = Some (FZip entries)
    ∧ extraction_failed s url entries = None
    ∧ fs_after_extract s url entries !! metafile_path
      = Some (FText (header :: values :: more))
    ∧ _download_data n s
      = (mkState
           (<[n := <["updated" := VTime (clock s)]>
                     (merged header values (with_paths e0 e1 r))]> (meta_data s))
           (delete (download_of url) (fs_after_extract s url entries))
           (net s) (clock s) (stdout s),
         inr tt).
Proof.
  intros Hok.
  destruct (opened_archive s n) as [[|[e0 x0] [|[e1 x1] rest]]|] eqn:Ho.
  - destruct (download_empty s n Ho) as [He _]. congruence.
  - destruct (opened_archive_Some _ _ _ Ho) as (r & url & Hr & _).
    destruct (download_single s n r e0 x0 Hr Ho) as [He _]. congruence.
  - destruct (opened_archive_Some _ _ _ Ho) as (r & url & Hr & Hu & Hz & Hc & Hs & Hw).
    pose proof (download_listed s n r url e0 x0 e1 x1 rest Hr Hu Hz Hc Hs Hw) as H.
    cbv zeta in H.
    destruct (extraction_failed s url _) as [ex|] eqn:Hx;
      [destruct H as ([e He] & _); congruence|].
    destruct (fs_after_extract s url _ !! metafile_path)
      as [[[|header [|values more]]| | |]|] eqn:Hm.
    3: { exists r, url, e0, x0, e1, x1, rest, header, values, more. cbv zeta.
         done. }
    all: destruct H as ([e He] & _); congruence.
  - destruct (download_not_opened s n Ho) as (e & He & _). congruence.
Qed.

End LifecycleFacts.

(** * The claims *)

Import PyStr World Database Pipeline Examples.
Import WorldFacts DatabaseFacts PyStrFacts LifecycleFacts.

(** ** Unknown dataset on refresh *)

(** C5. For every name that is not in the store, [update_data] raises the
    unknown-dataset error, [KeyError] on that name, and leaves the whole
    state, the store included, as it was. *)
Theorem refresh_unknown_dataset (s : state) (name : string) :
  meta_data s !! name = None →
  update_data name s = (s, inl (UnknownDataset name)).
Proof.
  intros Hnone. rewrite update_data_run.
  unfold _download_data. rewrite run_bind.
  by erewrite get_item_no_record.
Qed.

Lemma refresh_unknown_dataset_witness :
  update_data "never-registered" empty_state
  = (empty_state, inl (UnknownDataset "never-registered")).
Proof. apply (refresh_unknown_dataset empty_state "never-registered"). reflexivity. Defined.

(** ** Unsupported archive format on registration *)

(** C4, as stated, fails: the download is attempted before the extension is
    looked at, so a URL that cannot be retrieved raises the retrieval error
    and not the unsupported-format error. *)
Lemma register_tar_unreachable :
  ¬ ends_with tar_url ".zip"
  ∧ outcome (add_data "x" tar_url empty_state) = inl (URLError tar_url)
  ∧ outcome (add_data "x" tar_url empty_state) ≠ inl UnsupportedArchiveFormat.
Proof.
  split; [|split].
  - intros H%dl_type_zip_iff. vm_compute in H. discriminate.
  - vm_compute. reflexivity.
  - vm_compute. discriminate.
Qed.

(** C4, amended. Registering a dataset whose URL does not end in [.zip]
    fails: with the unsupported-format error when the retrieval of the URL
    returns, and with the error of the retrieval when that raises, the
    download being attempted before the extension is looked at. Either way
    the store then holds for that name a record with only the source
    URL. *)
Theorem register_unsupported_format (s : state) (name url : string) :
  ¬ ends_with url ".zip" →
  let res := add_data name url s in
  let retrieval := urlretrieve url (download_of url) (registered name url s) in
  (outcome retrieval = inr tt → outcome res = inl UnsupportedArchiveFormat)
  ∧ (∀ e, outcome retrieval = inl e → outcome res = inl e)
  ∧ meta_data (state_of res) = <[name := {["dl_url" := VStr url]}]> (meta_data s).
Proof.
  intros Hext res retrieval. subst res retrieval.
  assert (dl_type_of url ≠ ".zip") as Hz by (by rewrite dl_type_zip_iff).
  rewrite add_data_run, update_data_run.
  pose proof (registered_lookup s name url) as Hr.
  assert (({["dl_url" := VStr url]} : gmap string value) !! "dl_url" = Some (VStr url))
    as Hu by apply lookup_singleton_eq.
  unfold _download_data.
  rewrite run_bind. erewrite get_item_ok by eauto. cbv beta iota zeta.
  rewrite run_bind. cbn [as_str]. rewrite run_ret. cbv beta iota zeta.
  rewrite run_bind. fold (download_of url).
  destruct (urlretrieve_cases (registered name url s) url (download_of url))
    as [[e ->]|(c & _ & _ & _ & ->)].
  - cbn. split; [done|]. split; [|done]. by intros e' [= ->].
  - rewrite run_bind, decide_False by done. rewrite run_raise. cbn.
    split; [done|]. split; [done|]. done.
Qed.

Lemma tar_url_not_zip : ¬ ends_with tar_url ".zip".
Proof. intros H%dl_type_zip_iff. vm_compute in H. discriminate. Qed.

Lemma register_unsupported_format_witness :
  outcome (add_data "x" tar_url tar_served) = inl UnsupportedArchiveFormat
  ∧ meta_data (state_of (add_data "x" tar_url tar_served))
    = {["x" := {["dl_url" := VStr tar_url]}]}.
Proof.
  destruct (register_unsupported_format tar_served "x" tar_url tar_url_not_zip)
    as (Hreturned & _ & Hstore).
  split.
  - apply Hreturned. vm_compute. reflexivity.
  - exact Hstore.
Defined.


(** ** Archives with fewer than two members *)

(** C10, as stated, fails on a refresh: the record keeps the metadata path
    of the earlier fetch, so it is not left without one. *)
Lemma single_member_refresh_keeps_old_path :
  opened_archive one_refresh "x" = Some [("data.csv", cpi_data)]
  ∧ outcome (_download_data "x" one_refresh) = inl IndexError
  ∧ attr (meta_data (state_of (_download_data "x" one_refresh))) "x" "data_file" = Some (VStr "RawData/data.csv")
  ∧ attr (meta_data (state_of (_download_data "x" one_refresh))) "x" "meta_data" = Some (VStr "RawData/old_meta.csv").
Proof. vm_compute. done. Qed.

(** C10, amended. When the archive lists fewer than two names the fetch
    raises [IndexError]. With no name the store is untouched; with one name
    the record has by then received the new data path and nothing else, so
    its metadata path is what it was before: absent on a first
    registration, the earlier one on a refresh. *)
Theorem short_listing_index_error (s : state) (name : string)
    (r : gmap string value) (entries : list (string * file)) :
  meta_data s !! name = Some r →
  opened_archive s name = Some entries →
  (length entries < 2)%nat →
  let res := _download_data name s in
  outcome res = inl IndexError
  ∧ match entries with
    | [] => meta_data (state_of res) = meta_data s
    | (e, _) :: _ =>
        meta_data (state_of res)
        = <[name := <["data_file" := VStr ("RawData/" +:+ e)]> r]> (meta_data s)
        ∧ (<["data_file" := VStr ("RawData/" +:+ e)]> r) !! "meta_data"
          = r !! "meta_data"
    end.
Proof.
  intros Hr Ho Hlen res. subst res.
  destruct entries as [|[e x] [|? ?]]; cbn in Hlen; [| |lia].
  - by destruct (download_empty s name Ho).
  - destruct (download_single s name r e x Hr Ho) as [He Hm].
    split; [done|]. split; [done|]. by rewrite lookup_insert_ne.
Qed.

Lemma short_listing_index_error_witness :
  outcome (_download_data "x" (registered "x" one_url one_fresh)) = inl IndexError
  ∧ meta_data (state_of (_download_data "x" (registered "x" one_url one_fresh)))
    = <["x" := <["data_file" := VStr "RawData/data.csv"]> {["dl_url" := VStr one_url]}]>
        (meta_data (registered "x" one_url one_fresh))
  ∧ (<["data_file" := VStr "RawData/data.csv"]>
       ({["dl_url" := VStr one_url]} : gmap string value)) !! "meta_data"
    = ({["dl_url" := VStr one_url]} : gmap string value) !! "meta_data".
Proof.
  apply (short_listing_index_error (registered "x" one_url one_fresh) "x"
           {["dl_url" := VStr one_url]} [("data.csv", cpi_data)]).
  - vm_compute. reflexivity.
  - vm_compute. reflexivity.
  - cbn. lia.
Defined.

(** ** The pairing of the two artifact paths *)

Section Pairing.
Implicit Types (s : state) (n : string) (r : gmap string value) (m : store).







End Pairing.




(** ** What a refresh does to the header fields *)




(** ** Which header file the merge step reads *)

(** C2 does not hold of the code: the merge step opens the fixed path
    [RawData/11100134_MetaData.csv], not the path it has just recorded
    under ['meta_data']. On a clean directory the spec's happy path stops
    on the missing file; with the header file of table 11100134 left by an
    earlier download, the record of [cpi] receives that table's header
    fields and none of its own. *)
Theorem merge_reads_fixed_path :
  outcome (add_data "cpi" cpi_url cpi_fresh) = inl (FileNotFoundError metafile_path)
  ∧ outcome (add_data "cpi" cpi_url cpi_after_wages) = inr tt
  ∧ (let s' := state_of (add_data "cpi" cpi_url cpi_after_wages) in
     attr (meta_data s') "cpi" "meta_data" = Some (VStr "RawData/meta.csv")
     ∧ fs s' !! "RawData/meta.csv" = Some cpi_meta
     ∧ attr (meta_data s') "cpi" "Code" = None
     ∧ attr (meta_data s') "cpi" "Label" = None
     ∧ attr (meta_data s') "cpi" "Cube Title" = Some (VStr "Wages")
     ∧ attr (meta_data s') "cpi" "Product Id" = Some (VStr "11100134")).
Proof. vm_compute. done. Qed.

(** ** Loading a dataset *)




(** ** Projection *)

Section Projection.
Implicit Types (r : gmap string value) (m : store) (attributes : list string).

Lemma filter_record_lookup attributes r k :
  filter_record attributes r !! k
  = if decide (k ∈ attributes) then r !! k else None.
Proof.
  unfold filter_record.
  apply (map_fold_weak_ind (λ acc r', acc !! k
    = if decide (k ∈ attributes) then r' !! k else None)).
  - rewrite !lookup_empty. by case_decide.
  - intros sk v r' acc Hfresh IH.
    destruct (decide (sk ∈ attributes)) as [Hin|Hout];
      destruct (decide (sk = k)) as [->|Hne].
    + rewrite decide_True by done. by rewrite !lookup_insert_eq.
    + by rewrite !lookup_insert_ne.
    + rewrite IH. by rewrite !decide_False.
    + by rewrite lookup_insert_ne.
Qed.

Lemma filter_meta_run attributes (s : state) :
  filter_meta attributes s
  = (s, inr (filter_record attributes <$> meta_data s)).
Proof.
  unfold filter_meta. rewrite run_bind. cbn [get]. rewrite run_ret.
  do 2 f_equal. apply map_eq. intros k. rewrite lookup_fmap.
  apply (map_fold_weak_ind (λ acc m', acc !! k = filter_record attributes <$> m' !! k)).
  - by rewrite !lookup_empty.
  - intros k' r m' acc Hfresh IH. rewrite insert_insert_eq.
    destruct (decide (k' = k)) as [->|Hne].
    + by rewrite !lookup_insert_eq.
    + by rewrite !lookup_insert_ne.
Qed.
End Projection.

(** C7. For every store and every list of attribute names, [filter_meta]
    returns without raising and leaves the state as it was; the mapping it
    returns has the dataset names of the store as its keys, the keys of
    each returned record are among the requested names, and each returned
    record holds exactly the requested attributes its record has, the
    others being left out. *)
Theorem filter_meta_projection (s : state) (attributes : list string) :
  ∃ meta : store,
    filter_meta attributes s = (s, inr meta)
    ∧ dom meta = dom (meta_data s)
    ∧ (∀ n r', meta !! n = Some r' → dom r' ⊆ list_to_set attributes)
    ∧ (∀ n r', meta !! n = Some r' →
         ∃ r, meta_data s !! n = Some r
              ∧ ∀ k, r' !! k = if decide (k ∈ attributes) then r !! k else None).
Proof.
  exists (filter_record attributes <$> meta_data s).
  split; [by apply filter_meta_run|]. split; [apply dom_fmap_L|].
  split.
  - intros n r'. rewrite lookup_fmap.
    destruct (meta_data s !! n) as [r|]; [|done]. intros [= <-].
    intros k [v Hk]%elem_of_dom. rewrite filter_record_lookup in Hk.
    case_decide; [|done]. by apply elem_of_list_to_set.
  - intros n r'. rewrite lookup_fmap.
    destruct (meta_data s !! n) as [r|]; [|done]. intros [= <-].
    exists r. split; [done|]. intros k. apply filter_record_lookup.
Qed.

(** ** The transport helpers *)

Section TransportFacts.
Import Queries.
Context {J : Type} (json_loads : string → option J).

Lemma classified_intro url (sent : option J) (result : Response) :
  classified json_loads url sent result
    (if 500 <=? status_code result
     then inl (ServerFailedError (str (status_code result)))
     else if decide (text result = "")
     then inl (EmptyJsonError url sent)
     else json_of J json_loads result).
Proof.
  unfold classified, json_of.
  destruct (Z.leb_spec 500 (status_code result)) as [Hge|Hlt].
  - split; [done|]. split; [lia|]. split; [lia|]. split.
    + split; eauto.
    + split; [by intros [j ?]|lia].
  - destruct (decide (text result = "")) as [Hempty|Hbody].
    + split; [lia|]. split; [done|]. split; [done|]. split.
      * split; [by intros [c ?]|lia].
      * split; eauto.
    + split; [lia|]. split; [done|]. split; [done|]. split.
      * split; [|lia]. intros [c Hc]. by destruct (json_loads (text result)).
      * split; [|by intros [_ ?]]. intros [j Hj].
        by destruct (json_loads (text result)).
Qed.
End TransportFacts.

(** C8, as stated, fails in its last case: a response below 500 whose body
    is not empty and is not JSON (an HTML error page) makes [result.json()]
    raise, so nothing is returned. *)
Lemma get_html_error_page :
  Queries.status_code Queries.not_found < 500
  ∧ Queries.text Queries.not_found ≠ ""
  ∧ Queries._get (list string) Queries.loads_example
      (Queries.always Queries.not_found) "https://host/api"
    = inl Queries.JSONDecodeError
  ∧ (∀ v, Queries._get (list string) Queries.loads_example
            (Queries.always Queries.not_found) "https://host/api" ≠ inr v).
Proof. split; [done|]. split; [done|]. split; [reflexivity|]. intros v. discriminate. Qed.

(** C8, amended. On every response to a GET or a POST the client raises the
    server-failure error, carrying the status code, exactly when the status
    is at least 500; raises the empty-response error exactly when the status
    is below 500 and the body is empty; and otherwise returns the parsed
    value when the body decodes as JSON, the decoder's error being raised
    when it does not. *)
Theorem transport_classification (J : Type) (json_loads : string → option J)
    (requests_get : string → option Queries.Response)
    (requests_post : string → J → option Queries.Response) :
  (∀ url result, requests_get url = Some result →
     Queries.classified json_loads url None result
       (Queries._get J json_loads requests_get url))
  ∧ (∀ url json result, requests_post url json = Some result →
       Queries.classified json_loads url (Some json) result
         (Queries._post J json_loads requests_post url json)).
Proof.
  split.
  - intros url result Hr. unfold Queries._get. rewrite Hr. apply classified_intro.
  - intros url json result Hr. unfold Queries._post. rewrite Hr. apply classified_intro.
Qed.

Lemma transport_classification_witness :
  Queries.classified Queries.loads_example "https://host/api" None
    (Queries.mkResponse 200 "[]")
    (Queries._get (list string) Queries.loads_example
       (Queries.always (Queries.mkResponse 200 "[]")) "https://host/api").
Proof.
  apply (transport_classification (list string) Queries.loads_example
           (Queries.always (Queries.mkResponse 200 "[]")) (λ _ _, None)).
  reflexivity.
Defined.

(** ** Date normalization *)

Section Decimal.
Lemma pretty_N_go_head (x : N) (s : string) :
  (0 < x)%N → ∃ c rest, pretty_N_go x s = String c rest ∧ c ≠ "0"%char.
Proof.
  revert s. induction (N.lt_wf_0 x) as [x _ IH]. intros s Hpos.
  rewrite pretty_N_go_step by done.
  destruct (decide (x < 10)%N) as [Hsmall|Hbig].
  - rewrite N.div_small, pretty_N_go_0 by done.
    eexists _, _. split; [done|]. rewrite N.mod_small by done.
    destruct x as [|p]; [lia|].
    do 4 (destruct p as [p|p|]; try lia; try done).
  - apply IH.
    + apply N.div_lt; lia.
    + apply N.div_str_pos. lia.
Qed.

Lemma str_head (n : Z) :
  0 < n → ∃ c rest, PyStr.str n = String c rest ∧ c ≠ "0"%char.
Proof.
  destruct n as [|p|p]; [lia| |lia]. intros _.
  unfold PyStr.str, pretty, pretty_Z, pretty, pretty_positive, pretty, pretty_N.
  rewrite decide_False by done. by apply pretty_N_go_head.
Qed.
End Decimal.

(** C9. [_convert_date] returns a string argument as it is, and for a date
    it returns the year, the month and the day, each as [str] prints the
    integer, joined by hyphens. [str] does not pad: the digits of a positive
    component never start with a zero, so a month or day from 1 to 9 is a
    single character, as in [2017-1-5]. *)
Theorem convert_date_unpadded :
  (∀ s, Queries._convert_date (Queries.DateStr s) = s)
  ∧ (∀ year month day,
       Queries._convert_date (Queries.DateObj year month day)
       = PyStr.str year +:+ "-" +:+ PyStr.str month +:+ "-" +:+ PyStr.str day)
  ∧ (∀ n, 0 < n → ∃ c rest, PyStr.str n = String c rest ∧ c ≠ "0"%char)
  ∧ (∀ n, 1 <= n <= 9 → String.length (PyStr.str n) = 1%nat)
  ∧ Queries._convert_date (Queries.DateObj 2017 1 5) = "2017-1-5"
  ∧ Queries._convert_date (Queries.DateObj 2017 1 5) ≠ "2017-01-05".
Proof.
  split; [done|]. split; [done|]. split; [apply str_head|]. split; [|done].
  intros n Hn. destruct n as [|p|p]; [lia| |lia].
  do 4 (destruct p as [p|p|]; try lia; try done).
Qed.

Lemma convert_date_unpadded_witness :
  ∃ c rest, PyStr.str 12 = String c rest ∧ c ≠ "0"%char.
Proof.
  destruct convert_date_unpadded as (_ & _ & Hhead & _).
  apply (Hhead 12). lia.
Defined.

(** * Further properties of the code *)

(** ** What a fetch may touch *)

Section FetchEffect.
Import Frame.
Implicit Types (s : state) (n : string) (r : gmap string value).

Lemma fetch_effect_refl n s : fetch_effect n s s.
Proof. unfold fetch_effect. repeat split; eauto. Qed.

Lemma fetch_effect_trans n s1 s2 s3 :
  fetch_effect n s1 s2 → fetch_effect n s2 s3 → fetch_effect n s1 s3.
Proof.
  intros (Ho & Hk & Hn & Hf) (Ho' & Hk' & Hn' & Hf'). repeat split.
  - intros n' Hne. by rewrite Ho', Ho.
  - intros r Hr. destruct (Hk r Hr) as (r' & Hr' & Hd).
    destruct (Hk' r' Hr') as (r'' & Hr'' & Hd'). exists r''. split; [done|].
    set_solver.
  - eauto.
  - intros p Hp. by rewrite Hf', Hf.
Qed.

Lemma keeps_bind {A B} n (m : M A) (k : A → M B) :
  keeps (fetch_effect n) m → (∀ a, keeps (fetch_effect n) (k a)) →
  keeps (fetch_effect n) (m ≫= k).
Proof.
  intros Hm Hk s. rewrite run_bind. specialize (Hm s).
  destruct (m s) as [s' [e|a]]; [done|].
  eapply fetch_effect_trans; [exact Hm|apply Hk].
Qed.

Lemma keeps_pure {A} n (m : M A) :
  (∀ s, state_of (m s) = s) → keeps (fetch_effect n) m.
Proof. intros H s. rewrite H. apply fetch_effect_refl. Qed.

Lemma keeps_lift_opt {A} n (o : option A) e : keeps (fetch_effect n) (lift_opt o e).
Proof. apply keeps_pure. intros s. by destruct o. Qed.

Lemma keeps_get_item n n' k : keeps (fetch_effect n) (get_item n' k).
Proof.
  apply keeps_pure. intros s. unfold get_item. mred.
  destruct (meta_data s !! n') as [r|]; cbn; [|done].
  by destruct (r !! k).
Qed.

Lemma keeps_set_item n k v : keeps (fetch_effect n) (set_item n k v).
Proof.
  intros s. unfold set_item. mred.
  destruct (meta_data s !! n) as [r|] eqn:Hr; cbn; [|apply fetch_effect_refl].
  repeat split; cbn.
  - intros n' Hne. by rewrite lookup_insert_ne.
  - intros r0 Hr0. assert (r0 = r) as -> by congruence. rewrite lookup_insert_eq. eexists. split; [done|].
    rewrite dom_insert_L. set_solver.
  - congruence.
Qed.

Lemma keeps_update_item n d : keeps (fetch_effect n) (update_item n d).
Proof.
  intros s. unfold update_item. mred.
  destruct (meta_data s !! n) as [r|] eqn:Hr; cbn; [|apply fetch_effect_refl].
  repeat split; cbn.
  - intros n' Hne. by rewrite lookup_insert_ne.
  - intros r0 Hr0. assert (r0 = r) as -> by congruence. rewrite lookup_insert_eq. eexists. split; [done|].
    rewrite dom_union_L. set_solver.
  - congruence.
Qed.

Lemma fetch_effect_fs n s (f : filesystem → filesystem) :
  (∀ p, in_cache p = false → f (fs s) !! p = fs s !! p) →
  fetch_effect n s (with_fs f s).
Proof. intros Hf. repeat split; cbn; eauto. Qed.

Lemma keeps_urlretrieve n url dest :
  in_cache dest = true → keeps (fetch_effect n) (urlretrieve url dest).
Proof.
  intros Hd s.
  destruct (urlretrieve_cases s url dest) as [[e ->]|(c & _ & _ & _ & ->)];
    [apply fetch_effect_refl|].
  apply (fetch_effect_fs n s (<[dest := c]>)). intros p Hp. apply lookup_insert_ne. congruence.
Qed.

Lemma extracted_outside entries (f : filesystem) p :
  in_cache p = false → extracted entries f !! p = f !! p.
Proof.
  intros Hp. apply (extracted_ind (λ f', f' !! p = f !! p)); [|done].
  intros f' path x Hf' _ Hin. rewrite lookup_insert_ne; [done|].
  intros Heq. congruence.
Qed.

Lemma keeps_extractall n entries :
  keeps (fetch_effect n) (extractall entries "RawData").
Proof.
  intros s. rewrite extractall_run. apply fetch_effect_fs.
  intros p Hp. by apply extracted_outside.
Qed.

Lemma keeps_unlink n path :
  in_cache path = true → keeps (fetch_effect n) (unlink path).
Proof.
  intros Hd s. unfold unlink. mred.
  destruct (fs s !! path); cbn; [|apply fetch_effect_refl].
  apply (fetch_effect_fs n s (delete path)). intros p Hp. apply lookup_delete_ne. congruence.
Qed.

Lemma keeps_save n : keeps (fetch_effect n) save.
Proof.
  intros s. unfold save. mred.
  apply (fetch_effect_fs n s (<[pickle_path := FPickle (meta_data s)]>)). intros p Hp. apply lookup_insert_ne.
  intros <-. by vm_compute in Hp.
Qed.

Lemma in_cache_download dl_type : in_cache ("RawData/temp" +:+ dl_type) = true.
Proof. reflexivity. Qed.

Lemma keeps_download n : keeps (fetch_effect n) (_download_data n).
Proof.
  unfold _download_data. cbv zeta.
  apply keeps_bind; [apply keeps_get_item|intros v].
  apply keeps_bind; [apply keeps_pure; by destruct v|intros dl_url].
  apply keeps_bind; [apply keeps_urlretrieve, in_cache_download|intros _].
  apply keeps_bind.
  { destruct (decide _); [|by apply keeps_pure].
    apply keeps_bind.
    { apply keeps_pure. intros s. unfold ZipFile. mred.
      by destruct (read (fs s) _) as [|[]]. }
    intros zip_ref.
    apply keeps_bind; [apply keeps_lift_opt|intros n0].
    apply keeps_bind; [apply keeps_set_item|intros _].
    apply keeps_bind; [apply keeps_lift_opt|intros n1].
    apply keeps_bind; [apply keeps_set_item|intros _].
    apply keeps_extractall. }
  intros _.
  apply keeps_bind.
  { apply keeps_pure. intros s. by rewrite csv_rows_run. }
  intros csv_file.
  apply keeps_bind; [apply keeps_lift_opt|intros row0].
  apply keeps_bind; [apply keeps_lift_opt|intros header].
  apply keeps_bind; [apply keeps_lift_opt|intros values].
  apply keeps_bind; [apply keeps_update_item|intros _].
  apply keeps_bind; [by apply keeps_pure|intros t].
  apply keeps_bind; [apply keeps_set_item|intros _].
  intros s. unfold try_except.
  pose proof (keeps_unlink n _ (in_cache_download (dl_type_of dl_url)) s) as Hu.
  destruct (unlink _ s) as [s' [e|[]]]; [|done].
  destruct (is_OSError e); [|done].
  eapply fetch_effect_trans; [exact Hu|].
  unfold print, modify. cbn. repeat split; cbn; eauto.
Qed.

Lemma keeps_update_data n : keeps (fetch_effect n) (update_data n).
Proof.
  unfold update_data. apply keeps_bind; [apply keeps_download|intros _].
  apply keeps_save.
Qed.
End FetchEffect.
(** ** The files a fetch leaves behind *)

Section FetchFiles.
Import Frame.
Implicit Types (s : state) (n : string) (r : gmap string value).


End FetchFiles.

Section FetchFilesFacts.
Import Frame.
Implicit Types (s : state) (n : string) (r : gmap string value).


Lemma extracted_lookup_other entries (f : filesystem) p :
  p ∉ member_paths entries → extracted entries f !! p = f !! p.
Proof.
  intros Hp. apply (extracted_ind (λ f', f' !! p = f !! p)); [|done].
  intros f' path x Hf' Hin _. rewrite lookup_insert_ne; [done|].
  intros ->. done.
Qed.



End FetchFilesFacts.

(** ** Properties of the fetch and of persistence *)

(** X1. A registration or a refresh of one name leaves the record of every
    other name as it was, whether it returns or raises. *)
Theorem fetch_leaves_other_records (s : state) (name url other : string) :
  other ≠ name →
  meta_data (state_of (add_data name url s)) !! other = meta_data s !! other
  ∧ meta_data (state_of (update_data name s)) !! other = meta_data s !! other.
Proof.
  intros Hne. split.
  - rewrite add_data_run.
    destruct (keeps_update_data name (registered name url s)) as (Ho & _).
    rewrite Ho by done. cbn. by rewrite lookup_insert_ne.
  - destruct (keeps_update_data name s) as (Ho & _). by apply Ho.
Qed.

Lemma fetch_leaves_other_records_witness :
  meta_data (state_of (add_data "cpi" cpi_url one_refresh)) !! "x"
  = meta_data one_refresh !! "x"
  ∧ meta_data (state_of (update_data "cpi" one_refresh)) !! "x"
    = meta_data one_refresh !! "x".
Proof. apply (fetch_leaves_other_records one_refresh "cpi" cpi_url "x"). done. Defined.

(** X2. A refresh never drops a record or an attribute: whatever its
    outcome, the record of the name is still there and has every key it
    had before. *)
Theorem refresh_keeps_every_key (s : state) (name : string)
    (r : gmap string value) :
  meta_data s !! name = Some r →
  ∃ r', meta_data (state_of (update_data name s)) !! name = Some r'
        ∧ dom r ⊆ dom r'.
Proof.
  intros Hr. destruct (keeps_update_data name s) as (_ & Hk & _). by apply Hk.
Qed.

Lemma refresh_keeps_every_key_witness :
  ∃ r', meta_data (state_of (update_data "x" short_refresh)) !! "x" = Some r'
        ∧ dom fetched_record ⊆ dom r'.
Proof.
  apply (refresh_keeps_every_key short_refresh "x" fetched_record). reflexivity.
Defined.

(** X3. No operation of the class writes or deletes a file outside the
    cache directory [RawData/]. *)
Theorem writes_stay_in_cache (s : state) (p : string) :
  Frame.in_cache p = false →
  (∀ o, fs (state_of (exec o s)) !! p = fs s !! p)
  ∧ fs (state_of (save s)) !! p = fs s !! p
  ∧ fs (state_of (__init__ s)) !! p = fs s !! p.
Proof.
  intros Hp. split; [|split].
  - intros [n url|n|n|attributes]; cbn [exec].
    + rewrite add_data_run.
      destruct (keeps_update_data n (registered n url s)) as (_ & _ & _ & Hf).
      by rewrite Hf.
    + destruct (keeps_update_data n s) as (_ & _ & _ & Hf). by apply Hf.
    + rewrite run_bind. pose proof (load_data_state s n) as Hl.
      destruct (load_data n s) as [s' [e|df]]; cbn in *; by subst.
    + done.
  - destruct (keeps_save "" s) as (_ & _ & _ & Hf). by apply Hf.
  - unfold __init__. rewrite run_bind. cbn [get].
    destruct (fs s !! pickle_path) as [[| |obj|]|]; try done.
    rewrite run_bind. cbn [modify].
    destruct (keeps_save "" (with_meta_data (λ _, ∅) s)) as (_ & _ & _ & Hf).
    by rewrite Hf.
Qed.

Lemma writes_stay_in_cache_witness :
  fs (state_of (exec (Register "cpi" cpi_url) cpi_after_wages)) !! "notes.txt"
  = fs cpi_after_wages !! "notes.txt".
Proof.
  destruct (writes_stay_in_cache cpi_after_wages "notes.txt") as [Hops _];
    [reflexivity|].
  apply (Hops (Register "cpi" cpi_url)).
Defined.









(** X7. What [save] writes is what a new object reads: [__init__] run on
    the directory left by [save], from whatever the new object holds at
    first, returns with the saved store and changes nothing else. *)
Theorem save_then_init_restores (s : state) (m : store) :
  __init__ (Frame.fresh_object m (state_of (save s))) = (state_of (save s), inr tt).
Proof.
  unfold __init__, save. rewrite !run_bind. cbn [get modify state_of fst].
  cbn [Frame.fresh_object fs with_fs with_meta_data].
  rewrite lookup_insert_eq. by destruct s.
Qed.

(** X8. Whenever [__init__] returns, the pickle exists and holds exactly
    the store now in memory. When there was no pickle before, that store
    is empty; when there was one, it is the store the pickle held, and
    nothing else has changed. *)
Theorem init_creates_the_pickle (s : state) :
  outcome (__init__ s) = inr tt →
  Frame.synced (state_of (__init__ s))
  ∧ (fs s !! pickle_path = None → meta_data (state_of (__init__ s)) = ∅)
  ∧ (∀ obj, fs s !! pickle_path = Some (FPickle obj) →
       state_of (__init__ s) = Frame.fresh_object obj s).
Proof.
  unfold __init__, save, Frame.synced. rewrite run_bind. cbn [get].
  destruct (fs s !! pickle_path) as [[| |obj|]|] eqn:Hp; cbn; try done.
  - intros _. split; [done|]. split; [done|]. by intros ? [= <-].
  - intros _. split; [apply lookup_insert_eq|]. done.
Qed.

Lemma init_creates_the_pickle_witness :
  Frame.synced (state_of (__init__ cpi_after_wages))
  ∧ (fs cpi_after_wages !! pickle_path = None →
     meta_data (state_of (__init__ cpi_after_wages)) = ∅)
  ∧ (∀ obj, fs cpi_after_wages !! pickle_path = Some (FPickle obj) →
       state_of (__init__ cpi_after_wages) = Frame.fresh_object obj cpi_after_wages).
Proof.
  apply (init_creates_the_pickle cpi_after_wages). reflexivity.
Defined.

(** X9. Registering a name forgets the record it had: [add_data] gives the
    same outcome and the same state whatever record the store held for the
    name before. *)
Theorem register_forgets_previous_record (s : state) (name url : string)
    (r_old : gmap string value) :
  add_data name url (with_meta_data (<[name := r_old]>) s) = add_data name url s.
Proof.
  rewrite !add_data_run. f_equal. unfold registered, with_meta_data. cbn.
  by rewrite insert_insert_eq.
Qed.

(** ** The string and dictionary steps of the fetch *)

Section Strings.
Import PyStr.

Lemma rfind_from_absent i s c : char_in c s = false → rfind_from i s c = -1.
Proof.
  revert i. induction s as [|a s IH]; intros i; [done|].
  cbn [char_in rfind_from]. destruct (Ascii.eqb c a) eqn:Hca; [done|].
  intros Hs. rewrite IH by done. cbn. by rewrite Ascii.eqb_sym, Hca.
Qed.

Lemma rfind_from_last i s c :
  char_in c s = true → 0 <= i →
  ∃ p t, s = p +:+ String c t ∧ char_in c t = false
         ∧ rfind_from i s c = i + len p.
Proof.
  revert i. induction s as [|a s IH]; intros i Hin Hi; [done|].
  cbn [rfind_from]. destruct (char_in c s) eqn:Hs.
  - destruct (IH (i + 1) eq_refl) as (p & t & -> & Ht & ->); [lia|].
    exists (String a p), t. rewrite app_cons. split; [done|]. split; [done|].
    unfold len. cbn [String.length]. case Z.leb_spec; lia.
  - rewrite rfind_from_absent by done. cbn [Z.leb Z.compare].
    cbn [char_in] in Hin. rewrite Hs in Hin.
    destruct (Ascii.eqb c a) eqn:Hca; [|done].
    apply Ascii.eqb_eq in Hca as ->. rewrite Ascii.eqb_refl.
    exists "", s. unfold len. cbn. split; [done|]. split; [done|]. lia.
Qed.

Lemma length_drop n s : String.length (drop n s) = (String.length s - n)%nat.
Proof.
  revert s. induction n as [|n IH]; intros [|a s]; cbn [drop String.length];
    try done; lia.
Qed.

Lemma strip_chars_clean chars d c :
  char_in c chars = true → char_in c (strip_chars chars d) = false.
Proof.
  intros Hc. induction d as [|a d IH]; [done|].
  cbn [strip_chars]. destruct (char_in a chars) eqn:Ha; [done|].
  cbn [char_in]. destruct (Ascii.eqb c a) eqn:Hca; [|done].
  apply Ascii.eqb_eq in Hca as ->. congruence.
Qed.

Lemma strip_chars_fixed chars d :
  (∀ c, char_in c d = true → char_in c chars = false) →
  strip_chars chars d = d.
Proof.
  induction d as [|a d IH]; intros Hd; [done|]. cbn [strip_chars].
  rewrite (Hd a) by (cbn; by rewrite Ascii.eqb_refl).
  f_equal. apply IH. intros c Hc. apply Hd. cbn [char_in]. rewrite Hc.
  by destruct (Ascii.eqb c a).
Qed.

Lemma strip_chars_kept chars d c :
  char_in c (strip_chars chars d) = true → char_in c chars = false.
Proof.
  induction d as [|a d IH]; [done|]. cbn [strip_chars].
  destruct (char_in a chars) eqn:Ha; [done|].
  cbn [char_in]. destruct (Ascii.eqb c a) eqn:Hca; [|done].
  apply Ascii.eqb_eq in Hca as ->. done.
Qed.

Lemma strip_chars_app chars a b :
  strip_chars chars (a +:+ b) = strip_chars chars a +:+ strip_chars chars b.
Proof.
  induction a as [|c a IH]; [done|]. rewrite app_cons. cbn [strip_chars].
  destruct (char_in c chars); [done|]. by rewrite app_cons, IH.
Qed.

(** The characters of the literal in the comprehension, by code point. *)
Lemma char_in_header_junk c :
  char_in c header_junk = true
  ↔ c ∈ ["239"%char; "187"%char; "191"%char; "034"%char].
Proof.
  unfold header_junk. cbn [char_in]. rewrite !elem_of_cons, elem_of_nil.
  destruct (Ascii.eqb_spec c "239"); [tauto|].
  destruct (Ascii.eqb_spec c "187"); [tauto|].
  destruct (Ascii.eqb_spec c "191"); [tauto|].
  destruct (Ascii.eqb_spec c "034"); [tauto|].
  split; [done|tauto].
Qed.
End Strings.

(** X10. The extension [_download_data] cuts from a URL is the text from
    the last dot on: a dot followed by dot-free text when the URL has a
    dot. A URL without a dot yields its last character (nothing for the
    empty URL), so at most one character, which is never [.zip]. *)
Theorem dl_type_shape (url : string) :
  (char_in "." url = true →
   ∃ p t, url = p +:+ String "." t ∧ char_in "." t = false
          ∧ dl_type_of url = String "." t)
  ∧ (char_in "." url = false →
     dl_type_of url = PyStr.drop (String.length url - 1) url
     ∧ (String.length (dl_type_of url) <= 1)%nat
     ∧ dl_type_of url ≠ ".zip").
Proof.
  unfold dl_type_of, rfind. split.
  - intros Hin. destruct (rfind_from_last 0 url "." Hin) as (p & t & -> & Ht & ->);
      [lia|].
    exists p, t. split; [done|]. split; [done|].
    unfold slice_from, len. rewrite length_app.
    case Z.ltb_spec; intros Hlt; [exfalso; lia|].
    replace (Z.to_nat _) with (String.length p) by lia. apply drop_app.
  - intros Hout. rewrite rfind_from_absent by done.
    assert (slice_from url (-1) = PyStr.drop (String.length url - 1) url) as ->.
    { unfold slice_from, len. cbn [Z.ltb Z.compare]. f_equal. lia. }
    split; [done|].
    assert (String.length (PyStr.drop (String.length url - 1) url) <= 1)%nat as Hlen
      by (rewrite length_drop; lia).
    split; [done|]. intros Heq. rewrite Heq in Hlen. cbn in Hlen. lia.
Qed.

Lemma dl_type_shape_witness :
  ∃ p t, "http://host/t.zip?v=1.2" = p +:+ String "." t ∧ char_in "." t = false
         ∧ dl_type_of "http://host/t.zip?v=1.2" = String "." t.
Proof.
  destruct (dl_type_shape "http://host/t.zip?v=1.2") as [Hdot _].
  apply Hdot. reflexivity.
Defined.

(** X11. Cleaning a header token removes the three characters of a
    byte-order mark read as Latin-1 and the double quote, wherever they
    stand, and keeps every other character where it is: the cleaning of a
    text is the cleaning of its parts put together, one of the four
    characters between two parts is dropped and any other is kept between
    them. So a token without the four is returned as it is, and cleaning
    twice is cleaning once. *)
Theorem header_cleaning (c : ascii) (a b : string) :
  let clean := strip_chars header_junk in
  let junk := ["239"%char; "187"%char; "191"%char; "034"%char] in
  clean (a +:+ b) = clean a +:+ clean b
  ∧ (c ∈ junk → clean (a +:+ String c b) = clean a +:+ clean b)
  ∧ (c ∉ junk → clean (a +:+ String c b) = clean a +:+ String c (clean b))
  ∧ ((∀ c', char_in c' a = true → c' ∉ junk) → clean a = a)
  ∧ clean (clean a) = clean a.
Proof.
  cbv zeta. split; [apply strip_chars_app|].
  split; [|split; [|split]].
  - intros Hc%char_in_header_junk. rewrite strip_chars_app. cbn [strip_chars].
    by rewrite Hc.
  - intros Hc. rewrite strip_chars_app. cbn [strip_chars].
    destruct (char_in c header_junk) eqn:Hj; [|done].
    by apply char_in_header_junk in Hj.
  - intros Ha. apply strip_chars_fixed. intros c' Hc'.
    destruct (char_in c' header_junk) eqn:Hj; [|done].
    apply char_in_header_junk in Hj. by destruct (Ha c' Hc').
  - apply strip_chars_fixed. intros c'. apply strip_chars_kept.
Qed.

Lemma header_cleaning_witness :
  strip_chars header_junk ("Cube" +:+ String "034" " Title")
  = strip_chars header_junk "Cube" +:+ strip_chars header_junk " Title".
Proof.
  destruct (header_cleaning "034" "Cube" " Title") as (_ & Hjunk & _).
  apply Hjunk. rewrite !elem_of_cons. tauto.
Defined.

Section HeaderDict.
Implicit Types (pairs : list (string * string)) (header values : list string).

Lemma dict_snoc pairs k v :
  dict (pairs ++ [(k, v)]) = <[k := VStr v]> (dict pairs).
Proof. unfold dict. by rewrite foldl_snoc. Qed.

Lemma dict_lookup_absent pairs k : k ∉ pairs.*1 → dict pairs !! k = None.
Proof.
  induction pairs as [|[k' v'] pairs IH] using rev_ind; intros Hk; [done|].
  rewrite fmap_app, not_elem_of_app in Hk. destruct Hk as [Hk Hne].
  rewrite dict_snoc, lookup_insert_ne; [by apply IH|].
  cbn in Hne. set_solver.
Qed.

(** The last pair with a key is the one that counts. *)
Lemma dict_lookup_last pairs i k v :
  pairs !! i = Some (k, v) →
  (∀ j v', (i < j)%nat → pairs !! j ≠ Some (k, v')) →
  dict pairs !! k = Some (VStr v).
Proof.
  revert i. induction pairs as [|[k' v'] pairs IH] using rev_ind;
    intros i Hi Hlast; [done|].
  rewrite dict_snoc.
  destruct (decide (i < length pairs)%nat) as [Hlt|Hge].
  - rewrite lookup_app_l in Hi by done.
    assert (k' ≠ k) as Hne.
    { intros ->. apply (Hlast (length pairs) v'); [done|].
      by rewrite lookup_app_r, Nat.sub_diag. }
    rewrite lookup_insert_ne by done. apply (IH i); [done|].
    intros j v'' Hj Hp. apply (Hlast j v''); [done|].
    rewrite lookup_app_l; [done|]. by eapply lookup_lt_Some.
  - rewrite lookup_app_r in Hi by lia.
    destruct (i - length pairs)%nat eqn:Hd; [|done].
    cbn in Hi. injection Hi as -> ->. apply lookup_insert_eq.
Qed.

Lemma zip_fst_take header values :
  (zip header values).*1 = take (length values) header.
Proof.
  revert values. induction header as [|h header IH]; intros [|v values]; cbn;
    try done. by rewrite IH.
Qed.
End HeaderDict.

(** X12. The merge pairs header tokens with values by position, and of
    the columns that carry the same token the last that has a value wins:
    a token maps to the value under it whenever no later column with a
    value carries the same token. A token with no value under it (the
    header row is longer than the value row) produces no key. *)
Theorem header_pairing (header values : list string) :
  (∀ i k v, header !! i = Some k → values !! i = Some v →
     (∀ j, (i < j)%nat → is_Some (values !! j) → header !! j ≠ Some k) →
     dict (zip header values) !! k = Some (VStr v))
  ∧ (∀ k, k ∉ take (length values) header →
       dict (zip header values) !! k = None).
Proof.
  split.
  - intros i k v Hk Hv Hlast. apply (dict_lookup_last _ i).
    + rewrite lookup_zip_with, Hk. cbn. by rewrite Hv.
    + intros j v' Hj Hp. apply lookup_zip_with_Some in Hp
        as (k2 & v2 & [= <- <-] & Hk2 & Hv2).
      by apply (Hlast j).
  - intros k Hk. apply dict_lookup_absent. by rewrite zip_fst_take.
Qed.

Lemma header_pairing_witness :
  dict (zip ["A"; "A"; "B"; "A"] ["1"; "2"; "3"]) !! "A" = Some (VStr "2").
Proof.
  destruct (header_pairing ["A"; "A"; "B"; "A"] ["1"; "2"; "3"]) as [Hlast _].
  apply (Hlast 1%nat); [reflexivity..|].
  intros [|[|[|[|j]]]] Hj [v Hv]; try lia; try done.
Defined.

(** ** More on projection *)

Section ProjectionFacts.
Implicit Types (r : gmap string value) (A B : list string).

Lemma filter_record_ext A B r :
  (∀ k, k ∈ A ↔ k ∈ B) → filter_record A r = filter_record B r.
Proof.
  intros Hab. apply map_eq. intros k. rewrite !filter_record_lookup.
  destruct (decide (k ∈ A)) as [Ha|Ha]; destruct (decide (k ∈ B)) as [Hb|Hb];
    try done.
  - destruct Hb. by apply Hab.
  - destruct Ha. by apply Hab.
Qed.

Lemma filter_record_all A r :
  (∀ k, is_Some (r !! k) → k ∈ A) → filter_record A r = r.
Proof.
  intros Hall. apply map_eq. intros k. rewrite filter_record_lookup.
  case_decide as Hk; [done|]. destruct (r !! k) eqn:Hr; [|done].
  destruct Hk. apply Hall. eauto.
Qed.

Lemma filter_record_twice A B r :
  filter_record A (filter_record B r)
  = filter_record (filter (λ k, k ∈ B) A) r.
Proof.
  apply map_eq. intros k. rewrite !filter_record_lookup.
  destruct (decide (k ∈ A)) as [Ha|Ha]; destruct (decide (k ∈ B)) as [Hb|Hb].
  - rewrite decide_True; [done|]. by apply list_elem_of_filter.
  - rewrite decide_False; [done|]. by intros [? _]%list_elem_of_filter.
  - rewrite decide_False; [done|]. by intros [_ ?]%list_elem_of_filter.
  - rewrite decide_False; [done|]. by intros [_ ?]%list_elem_of_filter.
Qed.
End ProjectionFacts.

(** X13. [filter_meta] looks at the attribute list as a set: two lists with
    the same members, in any order and with any repetitions, give the same
    result. *)
Theorem projection_ignores_order (s : state) (A B : list string) :
  (∀ k, k ∈ A ↔ k ∈ B) → filter_meta A s = filter_meta B s.
Proof.
  intros Hab. rewrite !filter_meta_run. do 2 f_equal.
  apply map_fmap_ext. intros n r _. by apply filter_record_ext.
Qed.

Lemma projection_ignores_order_witness :
  filter_meta ["dl_url"; "updated"] one_refresh
  = filter_meta ["updated"; "dl_url"; "updated"] one_refresh.
Proof.
  apply projection_ignores_order. intros k.
  rewrite !elem_of_cons, !elem_of_nil. tauto.
Defined.

(** X14. Asking for every attribute that occurs in the store returns the
    store itself; asking for none returns every dataset name with an empty
    record. *)
Theorem projection_extremes (s : state) (A : list string) :
  ((∀ n r k, meta_data s !! n = Some r → is_Some (r !! k) → k ∈ A) →
   outcome (filter_meta A s) = inr (meta_data s))
  ∧ outcome (filter_meta [] s) = inr ((λ _, ∅) <$> meta_data s).
Proof.
  rewrite !filter_meta_run. cbn [outcome snd]. split.
  - intros Hall. f_equal. rewrite <- (map_fmap_id (meta_data s)) at 2.
    apply map_fmap_ext. intros n r Hr. apply filter_record_all. eauto.
  - f_equal. apply map_fmap_ext. intros n r _.
    apply map_eq. intros k. rewrite filter_record_lookup, lookup_empty.
    case_decide as Hk; [by apply elem_of_nil in Hk|done].
Qed.

Lemma projection_extremes_witness :
  outcome (filter_meta ["dl_url"; "data_file"; "meta_data"] one_refresh)
  = inr (meta_data one_refresh).
Proof.
  destruct (projection_extremes one_refresh ["dl_url"; "data_file"; "meta_data"])
    as [Hall _].
  apply Hall. intros n r k Hr Hk. cbn in Hr.
  destruct (decide (n = "x")) as [->|Hne].
  - rewrite lookup_singleton_eq in Hr. injection Hr as <-.
    unfold fetched_record in Hk.
    rewrite !elem_of_cons.
    destruct (decide (k = "meta_data")) as [->|?]; [tauto|].
    destruct (decide (k = "data_file")) as [->|?]; [tauto|].
    destruct (decide (k = "dl_url")) as [->|?]; [tauto|].
    rewrite !lookup_insert_ne, lookup_singleton_ne in Hk by done.
    by destruct Hk.
  - rewrite lookup_singleton_ne in Hr by done. done.
Defined.

(** X15. Projecting a projection is projecting on the common names: a new
    object holding the result of [filter_meta B] answers [filter_meta A] as
    the original object answers for the names of [A] that are in [B]. *)
Theorem projection_composes (s : state) (A B : list string) (m : store) :
  outcome (filter_meta B s) = inr m →
  outcome (filter_meta A (Frame.fresh_object m s))
  = outcome (filter_meta (filter (λ k, k ∈ B) A) s).
Proof.
  rewrite !filter_meta_run. cbn [outcome snd]. intros [= <-].
  cbn [Frame.fresh_object meta_data with_meta_data]. f_equal.
  rewrite <- map_fmap_compose. apply map_fmap_ext. intros n r _.
  apply filter_record_twice.
Qed.

Lemma projection_composes_witness :
  outcome (filter_meta ["dl_url"; "updated"]
             (Frame.fresh_object
                (filter_record ["dl_url"; "data_file"] <$> meta_data one_refresh)
                one_refresh))
  = outcome (filter_meta (filter (λ k, k ∈ ["dl_url"; "data_file"])
                                 ["dl_url"; "updated"]) one_refresh).
Proof.
  apply (projection_composes one_refresh ["dl_url"; "updated"] ["dl_url"; "data_file"]).
  by rewrite filter_meta_run.
Defined.

(** ** More on the dates and the endpoints of [queries] *)

Section Dashes.
Import PyStr.

Lemma pretty_N_char_no_dash (x : N) : Ascii.eqb "-" (pretty_N_char x) = false.
Proof. unfold pretty_N_char. by repeat case_match. Qed.

Lemma pretty_N_go_no_dash (x : N) (s : string) :
  char_in "-" s = false → char_in "-" (pretty_N_go x s) = false.
Proof.
  revert s. induction (N.lt_wf_0 x) as [x _ IH]. intros s Hs.
  destruct (decide (0 < x)%N) as [Hpos|Hzero].
  - rewrite pretty_N_go_step by done. apply IH; [by apply N.div_lt|].
    cbn [char_in]. by rewrite pretty_N_char_no_dash.
  - replace x with 0%N by lia. by rewrite pretty_N_go_0.
Qed.

Lemma str_no_dash (n : Z) : 0 <= n → char_in "-" (str n) = false.
Proof.
  destruct n as [|p|p]; [done| |lia]. intros _.
  unfold str, pretty, pretty_Z, pretty, pretty_positive, pretty, pretty_N.
  rewrite decide_False by done. by apply pretty_N_go_no_dash.
Qed.

Lemma split_at_dash a b c d :
  char_in "-" a = false → char_in "-" c = false →
  a +:+ String "-" b = c +:+ String "-" d → a = c ∧ b = d.
Proof.
  revert c. induction a as [|x a IH]; intros [|y c] Ha Hc; rewrite ?app_nil, ?app_cons.
  - by intros [= ->].
  - intros [= <- _]. cbn in Hc. done.
  - intros [= -> _]. cbn in Ha. done.
  - intros [= -> Heq]. cbn [char_in] in Ha, Hc.
    destruct (Ascii.eqb "-" y); [done|].
    destruct (IH c Ha Hc Heq) as [-> ->]. done.
Qed.

(** The unpadded form determines the date. *)
Lemma unpadded_inj (y m d y' m' d' : Z) :
  0 <= y → 0 <= m → 0 <= d → 0 <= y' → 0 <= m' → 0 <= d' →
  str y +:+ "-" +:+ str m +:+ "-" +:+ str d
  = str y' +:+ "-" +:+ str m' +:+ "-" +:+ str d' →
  y = y' ∧ m = m' ∧ d = d'.
Proof.
  intros Hy Hm Hd Hy' Hm' Hd'.
  change (str y +:+ String "-" (str m +:+ String "-" (str d))
          = str y' +:+ String "-" (str m' +:+ String "-" (str d'))
          → y = y' ∧ m = m' ∧ d = d').
  intros Heq.
  apply split_at_dash in Heq as [Hys Heq]; [|by apply str_no_dash..].
  apply split_at_dash in Heq as [Hms Hds]; [|by apply str_no_dash..].
  unfold str in *. by repeat split; apply (inj pretty).
Qed.

Lemma append_inj_l p a b : p +:+ a = p +:+ b → a = b.
Proof.
  induction p as [|c p IH]; [done|]. rewrite !app_cons. intros [= H]. by apply IH.
Qed.
End Dashes.

(** X16. [_convert_date] loses nothing: two dates with non-negative
    components that give the same string are the same date. *)
Theorem convert_date_injective (y m d y' m' d' : Z) :
  0 <= y → 0 <= m → 0 <= d → 0 <= y' → 0 <= m' → 0 <= d' →
  Queries._convert_date (Queries.DateObj y m d)
  = Queries._convert_date (Queries.DateObj y' m' d') →
  y = y' ∧ m = m' ∧ d = d'.
Proof.
  intros Hy Hm Hd Hy' Hm' Hd'.
  change (PyStr.str y +:+ String "-" (PyStr.str m +:+ String "-" (PyStr.str d))
          = PyStr.str y' +:+ String "-" (PyStr.str m' +:+ String "-" (PyStr.str d'))
          → y = y' ∧ m = m' ∧ d = d').
  intros Heq.
  apply split_at_dash in Heq as [Hys Heq]; [|by apply str_no_dash..].
  apply split_at_dash in Heq as [Hms Hds]; [|by apply str_no_dash..].
  unfold PyStr.str in *. by repeat split; apply (inj pretty).
Qed.

Lemma convert_date_injective_witness :
  (2017 : Z) = 2017 ∧ (1 : Z) = 1 ∧ (11 : Z) = 11.
Proof.
  apply (convert_date_injective 2017 1 11 2017 1 11); (lia || reflexivity).
Defined.

Section EndpointFacts.
Import Queries Endpoints.
Context (J : Type) (json_loads : string → option J)
        (requests_get : string → option Response).

Lemma en_or_fr_not_both (lang : string) :
  lang ∈ ["french"; "French"; "FRENCH"; "FR"; "fr"; "Fr";
          "Fre"; "FRE"; "fre"; "FRN"; "frn"; "Frn"] →
  lang ∉ ["english"; "English"; "ENGLISH"; "EN"; "en";
          "En"; "Eng"; "ENG"; "eng"].
Proof.
  rewrite !elem_of_cons, !elem_of_nil. intros Hfr Hen.
  repeat (destruct Hfr as [->|Hfr];
          [repeat (destruct Hen as [Hen|Hen]; [discriminate|]); done|]).
  done.
Qed.
End EndpointFacts.

(** X17. [get_changed_cube_list] requests the listing URL with the date
    put after it: a string as it is, and a [datetime.date] in its unpadded
    form, so that two dates issue the same request only if they are the
    same date. An argument that is neither a string nor exactly a date, a
    [datetime.datetime] included, is dropped without an error and the bare
    listing URL is requested. *)
Theorem changed_cube_list_argument (J : Type) (json_loads : string → option J)
    (requests_get : string → option Queries.Response) :
  let get_list := Endpoints.get_changed_cube_list J json_loads in
  let request path :=
    Queries._get J json_loads requests_get
      ("https://www150.statcan.gc.ca/t1/wds/rest/getChangedCubeList/" +:+ path) in
  let silent := Queries.always (Queries.mkResponse 200 "") in
  (∀ s, get_list requests_get (Endpoints.AStr s) = request s)
  ∧ (∀ y m d, get_list requests_get (Endpoints.ADate y m d)
              = request (PyStr.str y +:+ "-" +:+ PyStr.str m
                         +:+ "-" +:+ PyStr.str d))
  ∧ (∀ y m d, get_list requests_get (Endpoints.ADateTime y m d) = request "")
  ∧ get_list requests_get Endpoints.AOther = request ""
  ∧ (∀ y m d y' m' d',
       0 <= y → 0 <= m → 0 <= d → 0 <= y' → 0 <= m' → 0 <= d' →
       get_list silent (Endpoints.ADate y m d)
       = get_list silent (Endpoints.ADate y' m' d') →
       y = y' ∧ m = m' ∧ d = d').
Proof.
  cbv zeta. do 4 (split; [done|]).
  intros y m d y' m' d' Hy Hm Hd Hy' Hm' Hd'.
  unfold Endpoints.get_changed_cube_list, Queries._get, Queries.always.
  cbn [Queries.status_code Queries.text Queries._convert_date PyStr.join].
  rewrite decide_True by done. cbn [Z.leb Z.compare].
  intros [= Heq%append_inj_l]. by apply unpadded_inj.
Qed.

Lemma changed_cube_list_argument_witness :
  (2021 : Z) = 2021 ∧ (5 : Z) = 5 ∧ (3 : Z) = 3.
Proof.
  destruct (changed_cube_list_argument (list string) Queries.loads_example
              (Queries.always Queries.not_found)) as (_ & _ & _ & _ & Hinj).
  apply (Hinj 2021 5 3 2021 5 3); (lia || reflexivity).
Defined.

(** X18. [get_data_from_vector_by_reference_period_range] requests the
    range URL with the vectors, each between double quotes and separated
    by commas, then the two periods, under the names [vectorIds],
    [startRefPeriod] and [endReferencePeriod]. A period given as a date is
    sent in its unpadded form, a [datetime.datetime] as well as a date; one
    that is neither a string nor a date raises the [TypeError] of the
    concatenation before any request is made. *)
Theorem reference_period_range_arguments (J : Type)
    (json_loads : string → option J)
    (requests_get : string → option Queries.Response) (vectors : list Z) :
  let get_range := Endpoints.get_data_from_vector_by_reference_period_range
                     J json_loads requests_get vectors in
  let request query :=
    match Queries._get J json_loads requests_get
            ("https://www150.statcan.gc.ca/t1/wds/rest/getDataFromVectorByReferencePeriodRange"
             +:+ query) with
    | inl e => inl (Endpoints.Transport e)
    | inr v => inr v
    end in
  let quote := String "034" EmptyString in
  let unpadded y m d :=
    Endpoints.AStr (PyStr.str y +:+ "-" +:+ PyStr.str m +:+ "-" +:+ PyStr.str d) in
  (∀ a b, get_range (Endpoints.AStr a) (Endpoints.AStr b)
          = request ("?vectorIds=" +:+ quote
                     +:+ PyStr.join (quote +:+ "," +:+ quote) (map PyStr.str vectors)
                     +:+ quote +:+ "&startRefPeriod=" +:+ a
                     +:+ "&endReferencePeriod=" +:+ b))
  ∧ (∀ other y m d,
       get_range (Endpoints.ADate y m d) other = get_range (unpadded y m d) other
       ∧ get_range other (Endpoints.ADate y m d) = get_range other (unpadded y m d)
       ∧ get_range (Endpoints.ADateTime y m d) other
         = get_range (unpadded y m d) other
       ∧ get_range other (Endpoints.ADateTime y m d)
         = get_range other (unpadded y m d))
  ∧ (∀ other, get_range Endpoints.AOther other = inl Endpoints.ConcatTypeError
              ∧ get_range other Endpoints.AOther = inl Endpoints.ConcatTypeError).
Proof.
  cbv zeta. unfold Endpoints.get_data_from_vector_by_reference_period_range.
  split; [done|]. split.
  - intros other y m d. repeat split; done.
  - intros other. split; [done|]. by destruct other.
Qed.

(** X19. [get_full_table_download_csv] never rejects a language: one of
    the nine English spellings requests [.../<id>/en], one of the twelve
    French spellings requests [.../<id>/fr] (no spelling is in both lists),
    and any other string requests [.../<id>/None]. *)
Theorem full_table_csv_language (J : Type) (json_loads : string → option J)
    (requests_get : string → option Queries.Response)
    (product_id : Z) (language : string) :
  let request lan :=
    Queries._get J json_loads requests_get
      (Endpoints.full_table_csv_base +:+ PyStr.str product_id +:+ "/" +:+ lan) in
  let en := ["english"; "English"; "ENGLISH"; "EN"; "en"; "En"; "Eng"; "ENG"; "eng"] in
  let fr := ["french"; "French"; "FRENCH"; "FR"; "fr"; "Fr";
             "Fre"; "FRE"; "fre"; "FRN"; "frn"; "Frn"] in
  (language ∈ en →
   Endpoints.get_full_table_download_csv J json_loads requests_get product_id language
   = request "en")
  ∧ (language ∈ fr →
     Endpoints.get_full_table_download_csv J json_loads requests_get product_id language
     = request "fr")
  ∧ (language ∉ en → language ∉ fr →
     Endpoints.get_full_table_download_csv J json_loads requests_get product_id language
     = request "None").
Proof.
  cbv zeta. unfold Endpoints.get_full_table_download_csv, Endpoints._id_language.
  cbn [Endpoints.lan_dict Endpoints.first_listing].
  split; [|split].
  - intros Hen. by rewrite decide_True.
  - intros Hfr. rewrite decide_False by (by apply en_or_fr_not_both).
    by rewrite decide_True.
  - intros Hen Hfr. by rewrite !decide_False.
Qed.

Lemma full_table_csv_language_witness :
  Endpoints.get_full_table_download_csv (list string) Queries.loads_example
    (Queries.always Queries.not_found) 14100287 "Francais"
  = Queries._get (list string) Queries.loads_example (Queries.always Queries.not_found)
      (Endpoints.full_table_csv_base +:+ PyStr.str 14100287 +:+ "/" +:+ "None").
Proof.
  destruct (full_table_csv_language (list string) Queries.loads_example
              (Queries.always Queries.not_found) 14100287 "Francais")
    as (_ & _ & Hother).
  apply Hother.
  - apply (bool_decide_unpack _). vm_compute. exact I.
  - apply (bool_decide_unpack _). vm_compute. exact I.
Defined.

(** ** A registration that returns *)

Section Registered.
Implicit Types (s : state) (n : string).

Lemma add_data_succeeded s n url :
  outcome (add_data n url s) = inr tt →
  ∃ e0 x0 e1 x1 rest header values more,
    dl_type_of url = ".zip"
    ∧ net s !! url = Some (FZip ((e0, x0) :: (e1, x1) :: rest))
    ∧ fs_after_extract s url ((e0, x0) :: (e1, x1) :: rest) !! metafile_path
      = Some (FText (header :: values :: more))
    ∧ meta_data (state_of (add_data n url s))
      = <[n := <["updated" := VTime (clock s)]>
                 (merged header values
                    (with_paths e0 e1 {["dl_url" := VStr url]}))]> (meta_data s)
    ∧ fs (state_of (add_data n url s))
      = <[pickle_path := FPickle (meta_data (state_of (add_data n url s)))]>
          (delete (download_of url)
             (fs_after_extract s url ((e0, x0) :: (e1, x1) :: rest)))
    ∧ extraction_failed s url ((e0, x0) :: (e1, x1) :: rest) = None.
Proof.
  rewrite add_data_run, update_data_outcome. intros Hok.
  destruct (download_returned (registered n url s) n Hok)
    as (r & url' & e0 & x0 & e1 & x1 & rest & header & values & more
        & Hr & Hu & Hz & Hc & Hx & Hm & Hl).
  rewrite registered_lookup in Hr. injection Hr as <-.
  rewrite lookup_singleton_eq in Hu. injection Hu as <-.
  exists e0, x0, e1, x1, rest, header, values, more.
  split; [done|]. split; [done|]. split; [done|].
  rewrite update_data_run, Hl. cbn. rewrite insert_insert_eq. done.
Qed.

Lemma cache_name_inj e e' : "RawData/" +:+ e = "RawData/" +:+ e' → e = e'.
Proof. intros H. vm_compute in H. by injection H. Qed.

(** A member that is a file and whose extraction returns is written at
    its path. *)
Lemma extract_member_file (f f' : filesystem) member :
  PyStr.ends_in "/" member.1 = false →
  extract_member "RawData" f member = inr f' →
  f' = <[member_path "RawData" member.1 := member.2]> f.
Proof.
  unfold extract_member, member_path. intros ->.
  destruct (walk _ _ _ _); [done|].
  destruct (is_dir f _); [done|]. by intros [= <-].
Qed.

(** The first member of an archive that was extracted is found under
    its path when no other member is kept there. *)
Lemma extracted_first entries (f : filesystem) e x :
  extraction_error ((e, x) :: entries) f = None →
  PyStr.ends_in "/" e = false →
  NoDup (Frame.member_paths ((e, x) :: entries)) →
  extracted ((e, x) :: entries) f !! member_path "RawData" e = Some x.
Proof.
  rewrite extraction_error_cons, extracted_cons. intros Hx He Hnd.
  destruct (extract_member "RawData" f (e, x)) as [|f'] eqn:Hm; [done|].
  apply extract_member_file in Hm as ->; [|done].
  cbn [Frame.member_paths map] in Hnd. apply NoDup_cons in Hnd as [Hfresh _].
  rewrite extracted_lookup_other by done. apply lookup_insert_eq.
Qed.

Lemma ends_in_app c p t : t ≠ "" → PyStr.ends_in c (p +:+ t) = PyStr.ends_in c t.
Proof.
  intros Ht. induction p as [|a p IH]; [done|]. rewrite app_cons.
  cbn [PyStr.ends_in]. rewrite IH.
  destruct (p +:+ t) eqn:Hp; [|done]. by destruct p.
Qed.

Lemma csv_name e :
  ends_with e ".csv" →
  PyStr.ends_in "/" e = false ∧ e ≠ "" ∧ e ≠ "temp.zip" ∧ e ≠ "meta_data.p".
Proof.
  intros [p ->].
  assert (PyStr.ends_in "v" (p +:+ ".csv") = true) as Hv
    by (by rewrite ends_in_app).
  split; [by rewrite ends_in_app|].
  repeat split; intros Heq; by rewrite Heq in Hv.
Qed.
End Registered.

(** X20. Register, then load. When a registration returns, the first
    member of the archive is CSV text under a name that ends in [.csv] and
    has no empty, [.] or [..] component, no two members are kept under the
    same path, and the header row merged has no token [data_file], then
    [load_data] hands the loader the contents of that first member: it
    returns the table the loader reads from them, or raises the error the
    loader finds in them. *)
Theorem register_then_load (s : state) (name url : string)
    (entries : list (string * file)) (e0 : string) (content : rows) :
  outcome (add_data name url s) = inr tt →
  net s !! url = Some (FZip entries) →
  entries !! 0%nat = Some (e0, FText content) →
  ends_with e0 ".csv" →
  arcname e0 = e0 →
  NoDup (Frame.member_paths entries) →
  (∀ header values more,
     fs_after_extract s url entries !! metafile_path
     = Some (FText (header :: values :: more)) →
     dict (zip (map (strip_chars header_junk) header) values) !! "data_file" = None) →
  load_data name (state_of (add_data name url s))
  = (state_of (add_data name url s), read_frame content).
Proof.
  intros Hok Hc He0 Hcsv Harc Hnd Hheader.
  destruct (add_data_succeeded s name url Hok)
    as (e0' & x0 & e1 & x1 & rest & header & values & more
        & Hz & Hc' & Hm & Hst & Hfs & Hx).
  rewrite Hc in Hc'. injection Hc' as ->. cbn in He0. injection He0 as -> ->.
  specialize (Hheader header values more Hm).
  destruct (csv_name e0 Hcsv) as (Hslash & Hne & Htemp & Hpickle).
  assert (member_path "RawData" e0 = "RawData/" +:+ e0) as Hpath.
  { unfold member_path, target. rewrite Hslash, Harc. by rewrite decide_False. }
  unfold load_data. rewrite run_bind.
  erewrite (get_item_ok _ name _ "data_file" (VStr ("RawData/" +:+ e0))).
  - cbv beta iota. rewrite pandas_read_csv_run.
    erewrite read_text; [done|]. rewrite Hfs.
    rewrite lookup_insert_ne.
    2:{ change pickle_path with ("RawData/" +:+ "meta_data.p").
        by intros ?%cache_name_inj. }
    unfold download_of. rewrite Hz.
    rewrite lookup_delete_ne.
    2:{ change ("RawData/temp" +:+ ".zip") with ("RawData/" +:+ "temp.zip").
        by intros ?%cache_name_inj. }
    unfold fs_after_extract. rewrite <- Hpath.
    by apply extracted_first.
  - rewrite Hst. apply lookup_insert_eq.
  - rewrite lookup_insert_ne by done. unfold merged.
    rewrite lookup_union_r by done. unfold with_paths.
    rewrite lookup_insert_ne by done. apply lookup_insert_eq.
Qed.

Lemma register_then_load_witness :
  load_data "cpi" (state_of (add_data "cpi" cpi_url cpi_after_wages))
  = (state_of (add_data "cpi" cpi_url cpi_after_wages), inr (mkDataFrame cpi_rows)).
Proof.
  apply (register_then_load cpi_after_wages "cpi" cpi_url
           [("data.csv", cpi_data); ("meta.csv", cpi_meta)] "data.csv" cpi_rows).
  - vm_compute. reflexivity.
  - reflexivity.
  - reflexivity.
  - by exists "data".
  - reflexivity.
  - apply (bool_decide_unpack _). vm_compute. exact I.
  - intros header values more H. vm_compute in H. injection H as <- <- <-.
    vm_compute. reflexivity.
Defined.

(** X21. A registration that returns has replaced the record: its keys are
    the four the code writes itself and the cleaned header tokens that have
    a value under them, whatever the name had before. *)
Theorem registration_replaces_record (s : state) (name url : string) :
  outcome (add_data name url s) = inr tt →
  ∃ r' header values more e0 x0 e1 x1 rest,
    net s !! url = Some (FZip ((e0, x0) :: (e1, x1) :: rest))
    ∧ fs_after_extract s url ((e0, x0) :: (e1, x1) :: rest) !! metafile_path
      = Some (FText (header :: values :: more))
    ∧ meta_data (state_of (add_data name url s)) !! name = Some r'
    ∧ ∀ k, is_Some (r' !! k)
           ↔ k ∈ reserved
             ∨ k ∈ take (length values) (map (strip_chars header_junk) header).
Proof.
  intros Hok.
  destruct (add_data_succeeded s name url Hok)
    as (e0 & x0 & e1 & x1 & rest & header & values & more & Hz & Hc & Hm & Hst & _).
  eexists _, header, values, more, e0, x0, e1, x1, rest.
  split; [done|]. split; [done|]. split; [rewrite Hst; apply lookup_insert_eq|].
  intros k. unfold merged, with_paths, reserved.
  rewrite !elem_of_cons, elem_of_nil.
  destruct (decide (k = "updated")) as [->|Hu].
  { rewrite lookup_insert_eq. split; [tauto|eauto]. }
  rewrite lookup_insert_ne by done. rewrite lookup_union_is_Some.
  destruct (decide (k = "meta_data")) as [->|Hmd].
  { rewrite lookup_insert_eq. split; [tauto|eauto]. }
  rewrite lookup_insert_ne by done.
  destruct (decide (k = "data_file")) as [->|Hdf].
  { rewrite lookup_insert_eq. split; [tauto|eauto]. }
  rewrite lookup_insert_ne by done.
  destruct (decide (k = "dl_url")) as [->|Hdl].
  { rewrite lookup_singleton_eq. split; [tauto|eauto]. }
  rewrite lookup_singleton_ne by done.
  rewrite <- zip_fst_take.
  split.
  - intros [[v Hv]|[? ?]]; [|done]. right.
    destruct (decide (k ∈ (zip (map (strip_chars header_junk) header) values).*1))
      as [Hin|Hout]; [done|].
    by rewrite dict_lookup_absent in Hv.
  - intros [[?|[?|[?|[?|[]]]]]|Hin]; try done. left.
    destruct (dict (zip (map (strip_chars header_junk) header) values) !! k) eqn:Hd;
      [eauto|].
    exfalso. revert Hin Hd. generalize (zip (map (strip_chars header_junk) header) values).
    intros pairs. induction pairs as [|[k' v'] pairs IH] using rev_ind.
    + intros Hin. by apply elem_of_nil in Hin.
    + rewrite fmap_app, elem_of_app, dict_snoc. intros [Hin|Hin].
      * destruct (decide (k' = k)) as [->|Hne]; [by rewrite lookup_insert_eq|].
        rewrite lookup_insert_ne by done. by apply IH.
      * cbn in Hin. apply list_elem_of_singleton in Hin as ->.
        by rewrite lookup_insert_eq.
Qed.

Lemma registration_replaces_record_witness :
  ∃ r' header values more e0 x0 e1 x1 rest,
    net cpi_after_wages !! cpi_url = Some (FZip ((e0, x0) :: (e1, x1) :: rest))
    ∧ fs_after_extract cpi_after_wages cpi_url ((e0, x0) :: (e1, x1) :: rest)
        !! metafile_path
      = Some (FText (header :: values :: more))
    ∧ meta_data (state_of (add_data "cpi" cpi_url cpi_after_wages)) !! "cpi" = Some r'
    ∧ ∀ k, is_Some (r' !! k)
           ↔ k ∈ reserved
             ∨ k ∈ take (length values) (map (strip_chars header_junk) header).
Proof.
  apply (registration_replaces_record cpi_after_wages "cpi" cpi_url).
  vm_compute. reflexivity.
Defined.
